(** * user-mgmt worker: a shallow embedding of [packages/user-mgmt/src/index.ts]

    The worker is a stateless HTTP front door: it routes a request to one of
    five handlers, talks to a user store (D1) and to a session service, and
    stamps CORS headers on what it returns.

    Conventions of the embedding.
    - A JavaScript string is a [string]: a sequence of code units below 256.
    - A JavaScript value is a [value]; numbers are IEEE doubles ([spec_float]).
    - [Headers] are finite maps keyed by the lower-cased header name.
    - A handler is a computation in the monad [M]: it threads the state of
      the outside world, records every outbound call in a log, and either
      returns or throws.
    - What the platform provides and the repository does not define (the URL
      parser, SHA-256, the text encoder, string coercion, the entropy
      source) is a [Runtime]; what the deployment binds ([env.usersDB],
      [env.sessionService]) is an [Env]. Theorems hold for every runtime and
      every environment. *)

From Stdlib Require Import ZArith NArith Ascii String List Bool Lia.
From Stdlib Require Import Floats.SpecFloat.
From Stdlib Require Strings.Byte.
From stdpp Require Import base option list strings gmap.

Import ListNotations.
Local Open Scope list_scope.
Set Warnings "-register-all".
Set Default Proof Using "Type".

(** ** JavaScript strings *)

Module JsString.

Definition char_eqb (a b : ascii) : bool := Ascii.eqb a b.

(** [s.length === 0] *)
Definition is_empty (s : string) : bool :=
  match s with EmptyString => true | String _ _ => false end.

(** [s.split(sep)] for a separator of one character, which is what every
    call site of the worker passes ([';'], ['='] and [':']). *)
Fixpoint split (sep : ascii) (s : string) : list string :=
  match s with
  | EmptyString => [EmptyString]
  | String c rest =>
      if char_eqb c sep then EmptyString :: split sep rest
      else match split sep rest with
           | [] => [String c EmptyString]
           | piece :: pieces => String c piece :: pieces
           end
  end.

(** [pieces.join(sep)] *)
Fixpoint join (sep : string) (pieces : list string) : string :=
  match pieces with
  | [] => EmptyString
  | [p] => p
  | p :: rest => p +:+ sep +:+ join sep rest
  end.

(** White space and line terminators of ECMAScript below code unit 256:
    TAB, LF, VT, FF, CR, SP and NBSP. *)
Definition is_white (c : ascii) : bool :=
  let n := N_of_ascii c in
  ((9 <=? n) && (n <=? 13) || (n =? 32) || (n =? 160))%N.

Fixpoint trimStart (s : string) : string :=
  match s with
  | EmptyString => EmptyString
  | String c rest => if is_white c then trimStart rest else s
  end.

(** [trimEnd] keeps a character when it is not white space or when
    something is kept after it. *)
Fixpoint trimEnd (s : string) : string :=
  match s with
  | EmptyString => EmptyString
  | String c rest =>
      match trimEnd rest with
      | EmptyString => if is_white c then EmptyString else String c EmptyString
      | kept => String c kept
      end
  end.

(** [s.trim()] *)
Definition trim (s : string) : string := trimEnd (trimStart s).

(** [s.startsWith(p)] *)
Fixpoint startsWith (p s : string) : bool :=
  match p, s with
  | EmptyString, _ => true
  | String a p', String b s' => char_eqb a b && startsWith p' s'
  | String _ _, EmptyString => false
  end.

Definition lower_char (c : ascii) : ascii :=
  let n := N_of_ascii c in
  if ((65 <=? n) && (n <=? 90))%N then ascii_of_N (n + 32) else c.

(** ASCII lower-casing, the normal form of a header name. *)
Fixpoint lower (s : string) : string :=
  match s with
  | EmptyString => EmptyString
  | String c rest => String (lower_char c) (lower rest)
  end.

(** [s.includes(c)] for one character. *)
Fixpoint contains (c : ascii) (s : string) : bool :=
  match s with
  | EmptyString => false
  | String a rest => char_eqb a c || contains c rest
  end.

Definition eqb (a b : string) : bool := String.eqb a b.

End JsString.

(** ** Values, exceptions and outcomes *)

(** The exceptions the worker can meet: the three built-in error classes
    that the platform operations it calls raise, and a failure reported by
    a collaborator (the user store or the session service). *)
Inductive exn : Type :=
  | TypeError
  | SyntaxError
  | RangeError
  | HostError (what : string).

(** The result of evaluating an expression or awaiting a promise. *)
Inductive outcome (A : Type) : Type :=
  | Ok (a : A)
  | Throw (e : exn).
Arguments Ok {A} a.
Arguments Throw {A} e.

Definition outcome_bind {A B} (o : outcome A) (k : A -> outcome B) : outcome B :=
  match o with
  | Ok a => k a
  | Throw e => Throw e
  end.

(** A JavaScript value as [JSON.parse] and D1 produce them, and [undefined]. *)
Inductive value : Type :=
  | VUndefined
  | VNull
  | VBoolean (b : bool)
  | VNumber (x : spec_float)
  | VString (s : string)
  | VArray (items : list value)
  | VObject (props : list (string * value)).

(** ToBoolean. *)
Definition truthy (v : value) : bool :=
  match v with
  | VUndefined | VNull => false
  | VBoolean b => b
  | VNumber (S754_zero _) | VNumber S754_nan => false
  | VNumber _ => true
  | VString s => negb (JsString.is_empty s)
  | VArray _ | VObject _ => true
  end.

Fixpoint own_property (k : string) (props : list (string * value)) : option value :=
  match props with
  | [] => None
  | (k', v) :: rest => if JsString.eqb k' k then Some v else own_property k rest
  end.

(** [v.k], also the reading that a destructuring pattern [{ k } = v] does.
    Reading a property of [null] or [undefined] throws. The names that the
    worker reads (username, password, firstName, lastName, email and the
    four column names) are not defined by any prototype, so a value that
    is not an object holding the name answers [undefined]. *)
Definition member (v : value) (k : string) : outcome value :=
  match v with
  | VUndefined | VNull => Throw TypeError
  | VObject props =>
      match own_property k props with
      | Some x => Ok x
      | None => Ok VUndefined
      end
  | _ => Ok VUndefined
  end.

(** [null] and [undefined], whose properties cannot be read. *)
Definition nullish (v : value) : bool :=
  match v with
  | VUndefined | VNull => true
  | _ => false
  end.

(** The field [k] of a body that is not nullish: its own property of that
    name, [undefined] when it has none. *)
Definition field (v : value) (k : string) : value :=
  match v with
  | VObject props =>
      match own_property k props with
      | Some x => x
      | None => VUndefined
      end
  | _ => VUndefined
  end.

(** [x || d] for [x : string | null]. *)
Definition or_default (x : option string) (d : string) : string :=
  match x with
  | Some s => if JsString.is_empty s then d else s
  | None => d
  end.

(** The truthy strings among [string | null | undefined]. *)
Definition truthy_string (x : option string) : option string :=
  match x with
  | Some s => if JsString.is_empty s then None else Some s
  | None => None
  end.

(** ** Numbers as text *)

Definition digit_char (d : N) : ascii :=
  if (d <? 10)%N then ascii_of_N (48 + d) else ascii_of_N (87 + d).

Fixpoint digits_of (radix : N) (fuel : nat) (n : N) (acc : string) : string :=
  match fuel with
  | O => acc
  | S fuel' =>
      let acc' := String (digit_char (n mod radix)) acc in
      if (n / radix =? 0)%N then acc' else digits_of radix fuel' (n / radix) acc'
  end.

(** [n.toString(radix)] for a natural number [n]. *)
Definition Number_toString (radix : N) (n : N) : string :=
  digits_of radix (S (N.to_nat (N.log2 n))) n EmptyString.

(** [s.padStart(len, c)] *)
Definition padStart (len : nat) (c : ascii) (s : string) : string :=
  JsString.join EmptyString (repeat (String c EmptyString) (len - String.length s)) +:+ s.

(** [bytes.join('')] on a [Uint8Array]. *)
Definition Uint8Array_join (bytes : list Byte.byte) : string :=
  JsString.join EmptyString (map (fun b => Number_toString 10 (Byte.to_N b)) bytes).

(** [hashArray.map(b => b.toString(16).padStart(2, '0')).join('')] *)
Definition hex_of_bytes (hashArray : list Byte.byte) : string :=
  JsString.join EmptyString
    (map (fun b => padStart 2 "0" (Number_toString 16 (Byte.to_N b))) hashArray).

(** ** HTTP messages *)

(** A [Headers] object: header names are case-insensitive, so the map is
    keyed by the lower-cased name. *)
Abbreviation Headers := (gmap string string).

(** [headers.get(name)]; [None] is JavaScript's [null]. *)
Definition Headers_get (h : Headers) (name : string) : option string :=
  h !! JsString.lower name.

(** A header value may not hold NUL, LF or CR: the platform throws a
    [TypeError] when asked to store one. *)
Definition valid_header_value (v : string) : bool :=
  negb (JsString.contains "000" v) &&
  negb (JsString.contains "010" v) &&
  negb (JsString.contains "013" v).

(** [headers.set(name, v)] *)
Definition Headers_set (h : Headers) (name v : string) : outcome Headers :=
  if valid_header_value v then Ok (<[JsString.lower name := v]> h)
  else Throw TypeError.

(** [headers.append(name, v)]: a second value for a name is joined to the
    first one. *)
Definition Headers_append (h : Headers) (name v : string) : outcome Headers :=
  if valid_header_value v then
    match h !! JsString.lower name with
    | Some old => Ok (<[JsString.lower name := old +:+ ", " +:+ v]> h)
    | None => Ok (<[JsString.lower name := v]> h)
    end
  else Throw TypeError.

(** [new Headers(init)] for an object literal [init], entry by entry. *)
Fixpoint Headers_fill (h : Headers) (init : list (string * string)) : outcome Headers :=
  match init with
  | [] => Ok h
  | (name, v) :: rest =>
      outcome_bind (Headers_append h name v) (fun h' => Headers_fill h' rest)
  end.

Definition Headers_new (init : list (string * string)) : outcome Headers :=
  Headers_fill ∅ init.

(** What a message carries: nothing, a text, or the text that
    [JSON.stringify] gives for a value. *)
Inductive Body : Type :=
  | BodyNull
  | BodyText (s : string)
  | BodyJSON (v : value).

Record Response : Type := mkResponse {
  status : N;
  body : Body;
  headers : Headers;
}.

(** [new Response(body, { status, headers })] for a [Headers] object. A body
    given as a string brings its content type when the headers name none. *)
Definition Response_of (b : Body) (st : N) (h : Headers) : Response :=
  let h' :=
    match b, h !! "content-type" with
    | BodyNull, _ => h
    | _, Some _ => h
    | _, None => <["content-type" := "text/plain;charset=UTF-8"]> h
    end in
  mkResponse st b h'.

(** [new Response(body, { status, headers })] for an object literal. *)
Definition Response_new (b : Body) (st : N) (init : list (string * string)) : outcome Response :=
  outcome_bind (Headers_new init) (fun h => Ok (Response_of b st h)).

(** The request the worker receives. [request.json()] is given by what it
    settles to: the decoded body, or the error it rejects with. *)
Record Request : Type := mkRequest {
  method : string;
  url : string;
  req_headers : Headers;
  req_json : outcome value;
}.

(** A request the worker builds for the session service. *)
Record Subrequest : Type := mkSubrequest {
  sub_method : string;
  sub_url : string;
  sub_headers : list (string * string);
  sub_body : Body;
}.

(** A response of the session service, with what [text()] and [json()]
    settle to. *)
Record FetchResponse : Type := mkFetchResponse {
  fr_status : N;
  fr_text : outcome string;
  fr_json : outcome value;
}.

(** What [all()] of a D1 statement resolves to. *)
Record D1Result : Type := mkD1Result {
  success : bool;
  results : list value;
}.

(** A parsed URL, as far as the worker looks at it. *)
Record URL : Type := mkURL {
  protocol : string;
  pathname : string;
}.

(** ** The outside world *)

(** Every call that leaves the worker. *)
Inductive event : Type :=
  | D1All (query : string) (args : list value)
  | D1Run (query : string) (args : list value)
  | ServiceFetch (r : Subrequest)
  | RandomValues (n : nat)
  | ConsoleError (e : exn).

(** Does the event touch the user store? *)
Definition is_store_event (e : event) : bool :=
  match e with
  | D1All _ _ | D1Run _ _ => true
  | _ => false
  end.

(** Is the event a write to the user store? *)
Definition is_store_write (e : event) : bool :=
  match e with
  | D1Run _ _ => true
  | _ => false
  end.

(** The state of the collaborators and the calls made so far, latest last. *)
Record World (W : Type) : Type := mkWorld {
  host : W;
  log : list event;
}.
Arguments mkWorld {W} host log.
Arguments host {W} w.
Arguments log {W} w.

(** The globals of the platform. [URL_parse] answers [None] where
    [new URL(s)] throws; [subtle_digest] is [crypto.subtle.digest] for
    SHA-256; [ToString] is the string coercion that [+] applies to a value
    that is not a string. *)
Class Runtime (W : Type) : Type := {
  URL_parse : string -> option URL;
  URL_parse_empty : URL_parse EmptyString = None;
  TextEncoder_encode : string -> list Byte.byte;
  subtle_digest : list Byte.byte -> list Byte.byte;
  ToString : value -> outcome string;
  crypto_getRandomValues : nat -> W -> list Byte.byte * W;
}.

(** The bindings of the worker. [usersDB_all q args] stands for
    [env.usersDB.prepare(q).bind(...args).all()], [usersDB_run] for the same
    chain ending in [run()], [sessionService_fetch] for
    [env.sessionService.fetch]. *)
Record Env (W : Type) : Type := mkEnv {
  usersDB_all : string -> list value -> W -> outcome D1Result * W;
  usersDB_run : string -> list value -> W -> outcome unit * W;
  sessionService_fetch : Subrequest -> W -> outcome FetchResponse * W;
}.
Arguments mkEnv {W} _ _ _.
Arguments usersDB_all {W} e _ _ _.
Arguments usersDB_run {W} e _ _ _.
Arguments sessionService_fetch {W} e _ _.

(** ** Computations *)

Declare Scope js_scope.
Delimit Scope js_scope with js.

Section Monad.
Context {W : Type}.

Definition M (A : Type) : Type := World W -> outcome A * World W.

Definition ret {A} (a : A) : M A := fun w => (Ok a, w).

Definition throw {A} (e : exn) : M A := fun w => (Throw e, w).

Definition bind {A B} (m : M A) (k : A -> M B) : M B :=
  fun w =>
    match m w with
    | (Ok a, w') => k a w'
    | (Throw e, w') => (Throw e, w')
    end.

(** An expression that has no effect on the world. *)
Definition lift {A} (o : outcome A) : M A := fun w => (o, w).

(** [try { m } catch (error) { h error }] *)
Definition try_catch {A} (m : M A) (h : exn -> M A) : M A :=
  fun w =>
    match m w with
    | (Ok a, w') => (Ok a, w')
    | (Throw e, w') => h e w'
    end.

(** A call to a collaborator: the call is logged, the collaborator moves. *)
Definition call {A} (ev : event) (op : W -> outcome A * W) : M A :=
  fun w =>
    let (r, s) := op (host w) in
    (r, mkWorld s (log w ++ [ev])).

End Monad.
Arguments M W A : clear implicits.

Notation "x <- m ;; k" := (bind m (fun x => k))
  (at level 100, m at next level, k at level 200, right associativity) : js_scope.

(** ** The worker *)

Module Worker.
Section Worker.
Context {W : Type} {RT : Runtime W}.
Local Open Scope js_scope.

(** [const hashingAlgo = 'SHA-256']: the digest is [subtle_digest]. *)

(** The CORS headers of a preflight answer. *)
Definition corsHeaders : list (string * string) :=
  [ ("Access-Control-Allow-Origin", "*");
    ("Access-Control-Allow-Methods", "GET,HEAD,POST,OPTIONS");
    ("Access-Control-Max-Age", "86400");
    ("Access-Control-Allow-Credentials", "true") ].

(** [obj[k] = v] on an object literal of strings. *)
Fixpoint object_set (k v : string) (obj : list (string * string)) : list (string * string) :=
  match obj with
  | [] => [(k, v)]
  | (k', v') :: rest =>
      if JsString.eqb k' k then (k, v) :: rest else (k', v') :: object_set k v rest
  end.

(** [s + v] for a string [s]. *)
Definition string_plus (s : string) (v : value) : outcome string :=
  match v with
  | VString p => Ok (s +:+ p)
  | _ => outcome_bind (ToString v) (fun p => Ok (s +:+ p))
  end.

(** [storedHash.split(':')], which throws when the stored hash is not a
    string. *)
Definition split_stored (storedHash : value) : outcome (list string) :=
  match storedHash with
  | VString s => Ok (JsString.split ":" s)
  | _ => Throw TypeError
  end.

Definition getValidatedOrigin (request : Request) : outcome (option string) :=
  match Headers_get (req_headers request) "Origin" with
  | None => Ok None
  | Some origin =>
      match URL_parse origin with
      | None => Throw TypeError
      | Some u =>
          if JsString.eqb (protocol u) "http:" || JsString.eqb (protocol u) "https:"
          then Ok (Some origin)
          else Ok None
      end
  end.

Definition hashPassword (password : value) : M W string :=
  random <- call (RandomValues 16) (fun s =>
              let (bytes, s') := crypto_getRandomValues 16 s in (Ok bytes, s')) ;;
  let salt := Uint8Array_join random in
  text <- lift (string_plus salt password) ;;
  let data := TextEncoder_encode text in
  let hashBuffer := subtle_digest data in
  let hashHex := hex_of_bytes hashBuffer in
  ret (salt +:+ ":" +:+ hashHex).

Definition comparePassword (providedPassword storedHash : value) : outcome bool :=
  outcome_bind (split_stored storedHash) (fun parts =>
  let salt := nth 0 parts EmptyString in
  let originalHash := nth_error parts 1 in
  outcome_bind (string_plus salt providedPassword) (fun text =>
  let data := TextEncoder_encode text in
  let hashBuffer := subtle_digest data in
  let hashHex := hex_of_bytes hashBuffer in
  Ok match originalHash with
     | Some h => JsString.eqb hashHex h
     | None => false
     end)).

(** The cookie decoding that [handleLoadUser] (lines 77-87) and
    [handleLogout] (lines 197-207) both spell out. [None] is a session
    id that is [null] or [undefined]. *)
Definition sessionIdOfCookie (cookieHeader : option string) : option string :=
  match truthy_string cookieHeader with
  | Some header =>
      let cookies := map JsString.trim (JsString.split ";" header) in
      match truthy_string (find (JsString.startsWith "cfw_session=") cookies) with
      | Some sessionCookie => nth_error (JsString.split "=" sessionCookie) 1
      | None => None
      end
  | None => None
  end.

Definition json_error (msg : string) : Body := BodyJSON (VObject [("error", VString msg)]).
Definition json_message (msg : string) : Body := BodyJSON (VObject [("message", VString msg)]).

Definition d1_all (env : Env W) (query : string) (args : list value) : M W D1Result :=
  call (D1All query args) (usersDB_all env query args).

Definition d1_run (env : Env W) (query : string) (args : list value) : M W unit :=
  call (D1Run query args) (usersDB_run env query args).

Definition service_fetch (env : Env W) (r : Subrequest) : M W FetchResponse :=
  call (ServiceFetch r) (sessionService_fetch env r).

Definition handleLoadUser (request : Request) (env : Env W) : M W Response :=
  let cookieHeader := Headers_get (req_headers request) "Cookie" in
  let sessionId := sessionIdOfCookie cookieHeader in
  match truthy_string sessionId with
  | Some sid =>
      let loadSessionUrl := "https://session-state.d1.compact.workers.dev/get/" +:+ sid in
      let loadRequest := mkSubrequest "GET" loadSessionUrl [] BodyNull in
      loadResponse <- service_fetch env loadRequest ;;
      sessionData <- lift (fr_json loadResponse) ;;
      origin <- lift (getValidatedOrigin request) ;;
      lift (Response_new (BodyJSON sessionData) 200
              [ ("Access-Control-Allow-Origin", or_default origin "*");
                ("Content-Type", "application/json") ])
  | None => lift (Response_new (json_error "User not logged in") 401 [])
  end.

Definition checkUserQuery : string := "SELECT Username FROM User WHERE Username = ?".
Definition insertUserQuery : string :=
  "INSERT INTO User (Username, Password, FirstName, LastName) VALUES (?, ?, ?, ?)".

Definition handleRegister (request : Request) (env : Env W) : M W Response :=
  try_catch
    (regData <- lift (req_json request) ;;
     username <- lift (member regData "username") ;;
     password <- lift (member regData "password") ;;
     firstName <- lift (member regData "firstName") ;;
     lastName <- lift (member regData "lastName") ;;
     if negb (truthy username) || negb (truthy password) then
       lift (Response_new (json_error "Missing required fields") 400 [])
     else
       existingUser <- d1_all env checkUserQuery [username] ;;
       if success existingUser && (0 <? length (results existingUser))%nat then
         lift (Response_new (json_error "User already exists") 409 [])
       else
         hashedPassword <- hashPassword password ;;
         _ <- d1_run env insertUserQuery
                [username; VString hashedPassword; firstName; lastName] ;;
         lift (Response_new (json_message "User registered successfully") 201 []))
    (fun error => lift (Response_new (json_error "Internal server error") 500 [])).

Definition loginQuery : string := "SELECT * FROM User WHERE Username = ?1".

(** The [try] block of [handleLogin]: [Some r] when it returns [r],
    [None] when control falls out of it. *)
Definition loginAttempt (request : Request) (env : Env W) (username password : value)
  : M W (option Response) :=
  if truthy username && truthy password then
    found <- d1_all env loginQuery [username] ;;
    let result := results found in
    match result with
    | user :: _ =>
        stored <- lift (member user "Password") ;;
        passwordMatch <- lift (comparePassword password stored) ;;
        if negb passwordMatch then
          r <- lift (Response_new (json_error "Invalid credentials") 401 []) ;;
          ret (Some r)
        else
          uname <- lift (member user "Username") ;;
          first <- lift (member user "FirstName") ;;
          last <- lift (member user "LastName") ;;
          let sessionData :=
            VObject [("username", uname); ("firstName", first); ("lastName", last)] in
          let sessionCreationRequest :=
            mkSubrequest "POST" "https://session-state.d1.compact.workers.dev/create"
              [("Content-Type", "application/json")] (BodyJSON sessionData) in
          sessionResponse <- service_fetch env sessionCreationRequest ;;
          sessionId <- lift (fr_text sessionResponse) ;;
          origin <- lift (getValidatedOrigin request) ;;
          headers <- lift (Headers_new
            [ ("Access-Control-Allow-Origin", or_default origin "*");
              ("Content-Type", "application/json");
              ("Set-Cookie",
               "cfw_session=" +:+ sessionId +:+
               "; Secure; Path=/; SameSite=None; Max-Age=" +:+ Number_toString 10 (60 * 30)) ]) ;;
          ret (Some (Response_of (json_message "Login successful") 200 headers))
    | [] => ret None
    end
  else ret None.

Definition handleLogin (request : Request) (env : Env W) : M W Response :=
  credentials <- lift (req_json request) ;;
  username <- lift (member credentials "username") ;;
  password <- lift (member credentials "password") ;;
  returned <- try_catch (loginAttempt request env username password)
                (fun error => _ <- call (ConsoleError error) (fun s => (Ok tt, s)) ;;
                              ret None) ;;
  match returned with
  | Some r => ret r
  | None => lift (Response_new (json_error "Login failed") 401 [])
  end.

Definition handleLogout (request : Request) (env : Env W) : M W Response :=
  let cookieHeader := Headers_get (req_headers request) "Cookie" in
  let sessionId := sessionIdOfCookie cookieHeader in
  _ <- match truthy_string sessionId with
       | Some sid =>
           let deleteSessionUrl :=
             "https://session-state.d1.compact.workers.dev/delete/" +:+ sid in
           let deleteRequest := mkSubrequest "DELETE" deleteSessionUrl [] BodyNull in
           _ <- service_fetch env deleteRequest ;;
           ret tt
       | None => ret tt
       end ;;
  headers <- lift (Headers_new
    [("Set-Cookie", "cfw_session=; HttpOnly; Secure; SameSite=Strict; Max-Age=0")]) ;;
  ret (Response_of (json_message "Logout successful") 200 headers).

Definition handleForgotPassword (request : Request) (env : Env W) : M W Response :=
  data <- lift (req_json request) ;;
  email <- lift (member data "email") ;;
  lift (Response_new (json_message "Password reset initiated") 200 []).

Definition handleOptions (request : Request) : outcome Response :=
  let headers := req_headers request in
  if bool_decide (Headers_get headers "Origin" <> None) &&
     bool_decide (Headers_get headers "Access-Control-Request-Method" <> None) &&
     bool_decide (Headers_get headers "Access-Control-Request-Headers" <> None)
  then
    let respHeaders :=
      object_set "Access-Control-Allow-Headers"
        (or_default (Headers_get headers "Access-Control-Request-Headers") EmptyString)
        corsHeaders in
    let respHeaders := object_set "Content-Type" "text/plain" respHeaders in
    let respHeaders := object_set "X-Content-Type-Options" "nosniff" respHeaders in
    outcome_bind (getValidatedOrigin request) (fun origin =>
    let respHeaders :=
      object_set "Access-Control-Allow-Origin" (or_default origin "*") respHeaders in
    Response_new BodyNull 200 respHeaders)
  else
    Response_new BodyNull 200
      [("Allow", "GET, HEAD, POST, OPTIONS"); ("Content-Type", "text/plain")].

(** Lines 42-64 of [fetch]: the preflight test and the [switch] on the
    path. *)
Definition dispatch (request : Request) (env : Env W) (path : string) : M W Response :=
  if JsString.eqb (method request) "OPTIONS" then lift (handleOptions request)
  else if JsString.eqb path "/register" then handleRegister request env
  else if JsString.eqb path "/login" then handleLogin request env
  else if JsString.eqb path "/logout" then handleLogout request env
  else if JsString.eqb path "/forgot-password" then handleForgotPassword request env
  else if JsString.eqb path "/load-user" then handleLoadUser request env
  else lift (Response_new (BodyText "Not Found") 404 []).

(** The [fetch] method of the worker's default export. *)
Definition fetch (request : Request) (env : Env W) : M W Response :=
  match URL_parse (url request) with
  | None => throw TypeError
  | Some parsed =>
      let path := pathname parsed in
      response <- dispatch request env path ;;
      origin <- lift (getValidatedOrigin request) ;;
      h1 <- lift (Headers_set (headers response) "Access-Control-Allow-Origin"
                    (or_default origin "*")) ;;
      h2 <- lift (Headers_set h1 "Access-Control-Allow-Methods"
                    "GET, POST, PUT, DELETE, OPTIONS") ;;
      h3 <- lift (Headers_set h2 "Access-Control-Allow-Credentials" "true") ;;
      ret (mkResponse (status response) (body response) h3)
  end.

End Worker.
End Worker.

(** ** What the handlers build

    Names for the requests, cookies and responses that the statements
    below speak about. *)

(** The cookie that a login sets for a session id. *)
Definition session_cookie (sessionId : string) : string :=
  "cfw_session=" +:+ sessionId +:+ "; Secure; Path=/; SameSite=None; Max-Age=1800".

(** The request that asks the session service for a session. *)
Definition creation_request (user : value) : Subrequest :=
  mkSubrequest "POST" "https://session-state.d1.compact.workers.dev/create"
    [("Content-Type", "application/json")]
    (BodyJSON (VObject [ ("username", field user "Username");
                         ("firstName", field user "FirstName");
                         ("lastName", field user "LastName") ])).

Definition cleared_cookie : string :=
  "cfw_session=; HttpOnly; Secure; SameSite=Strict; Max-Age=0".

(** The request that asks the session service to drop a session. *)
Definition deletion_request (sid : string) : Subrequest :=
  mkSubrequest "DELETE" ("https://session-state.d1.compact.workers.dev/delete/" +:+ sid)
    [] BodyNull.

(** The session id that [handleLogout] acts on, if it finds one. *)
Definition logout_session (request : Request) : option string :=
  truthy_string (Worker.sessionIdOfCookie (Headers_get (req_headers request) "Cookie")).

Definition logout_response : Response :=
  Response_of (Worker.json_message "Logout successful") 200 (<["set-cookie" := cleared_cookie]> ∅).

Definition allowed_methods : string := "GET, POST, PUT, DELETE, OPTIONS".

(** The three headers that [fetch] sets on the response of a handler. *)
Definition stamp (response : Response) (allowed_origin : string) : Response :=
  mkResponse (status response) (body response)
    (<["access-control-allow-credentials" := "true"]>
      (<["access-control-allow-methods" := allowed_methods]>
        (<["access-control-allow-origin" := allowed_origin]> (headers response)))).

(** The request that asks the session service for the data of a session. *)
Definition load_request (sid : string) : Subrequest :=
  mkSubrequest "GET" ("https://session-state.d1.compact.workers.dev/get/" +:+ sid)
    [] BodyNull.

(** The session id that [handleLoadUser] acts on, if it finds one. *)
Definition load_session (request : Request) : option string :=
  truthy_string (Worker.sessionIdOfCookie (Headers_get (req_headers request) "Cookie")).

(** Do all the characters of a text pass a test? *)
Fixpoint all_chars (p : ascii -> bool) (s : string) : bool :=
  match s with
  | EmptyString => true
  | String c rest => p c && all_chars p rest
  end.

Definition is_decimal_digit (c : ascii) : bool :=
  let n := N_of_ascii c in ((48 <=? n) && (n <=? 57))%N.

Definition is_hex_digit (c : ascii) : bool :=
  let n := N_of_ascii c in
  is_decimal_digit c || ((97 <=? n) && (n <=? 102))%N.

(** Reading a digest back from its hexadecimal text; the worker has no
    such function, it serves to show that the text determines the bytes. *)
Definition hex_digit_value (c : ascii) : N :=
  let n := N_of_ascii c in if (n <? 58)%N then (n - 48)%N else (n - 87)%N.

Fixpoint bytes_of_hex (s : string) : option (list Byte.byte) :=
  match s with
  | EmptyString => Some []
  | String c1 (String c2 rest) =>
      match Byte.of_N (16 * hex_digit_value c1 + hex_digit_value c2), bytes_of_hex rest with
      | Some b, Some bs => Some (b :: bs)
      | _, _ => None
      end
  | String _ EmptyString => None
  end.

(** The calls that a run of [handleLogin] may make: the lookup of the
    user, the creation of a session from a row, and [console.error]. *)
Definition login_event (ev : event) : Prop :=
  match ev with
  | D1All query _ => query = Worker.loginQuery
  | ServiceFetch r => exists user, r = creation_request user
  | ConsoleError _ => True
  | D1Run _ _ | RandomValues _ => False
  end.

(** What [handleLogin] answers with: 401 and no cookie, or 200 and the
    cookie of a session. *)
Definition login_answer (r : Response) : Prop :=
  (status r = 401%N /\ Headers_get (headers r) "Set-Cookie" = None) \/
  (status r = 200%N /\
   exists sessionId, Headers_get (headers r) "Set-Cookie" = Some (session_cookie sessionId)).

(** The calls of a registration that goes all the way. *)
Definition register_calls (username hashed firstName lastName : value) : list event :=
  [ D1All Worker.checkUserQuery [username];
    RandomValues 16;
    D1Run Worker.insertUserQuery [username; hashed; firstName; lastName] ].

(** The paths that [fetch] has a handler for. *)
Definition routes : list string :=
  ["/register"; "/login"; "/logout"; "/forgot-password"; "/load-user"].

(** ** A small platform to run the worker on

    The theorems below hold for every [Runtime] and every [Env]. To run the
    handlers on concrete requests, this module supplies one of each: a
    parser for plain URLs (scheme, host, path; hosts are not validated and
    paths are not normalised), a stand-in digest, and collaborators kept in
    memory. *)

Module Sample.

Definition is_alpha (c : ascii) : bool :=
  let n := N_of_ascii (JsString.lower_char c) in ((97 <=? n) && (n <=? 122))%N.

Definition is_scheme_char (c : ascii) : bool :=
  let n := N_of_ascii c in
  is_alpha c || ((48 <=? n) && (n <=? 57))%N || (n =? 43)%N || (n =? 45)%N || (n =? 46)%N.

(** The scheme state of the URL parser: the scheme in lower case and
    what follows the colon; [None] when the input has no scheme, which
    without a base URL is a failure. *)
Fixpoint scan_scheme (s : string) : option (string * string) :=
  match s with
  | EmptyString => None
  | String c rest =>
      if JsString.char_eqb c ":" then Some (EmptyString, rest)
      else if is_scheme_char c then
        match scan_scheme rest with
        | Some (scheme, after) => Some (String (JsString.lower_char c) scheme, after)
        | None => None
        end
      else None
  end.

Definition parse_scheme (s : string) : option (string * string) :=
  match s with
  | String c _ => if is_alpha c then scan_scheme s else None
  | EmptyString => None
  end.

Fixpoint skip_slashes (s : string) : string :=
  match s with
  | String "/" rest => skip_slashes rest
  | _ => s
  end.

(** The text up to the first of [stops], and the rest from there on. *)
Fixpoint take_until (stops : list ascii) (s : string) : string * string :=
  match s with
  | EmptyString => (EmptyString, EmptyString)
  | String c rest =>
      if existsb (JsString.char_eqb c) stops then (EmptyString, s)
      else let (taken, after) := take_until stops rest in (String c taken, after)
  end.

Definition is_special (scheme : string) : bool :=
  existsb (JsString.eqb scheme) ["http"; "https"; "ftp"; "ws"; "wss"].

Definition parse_url (input : string) : option URL :=
  match parse_scheme (JsString.trim input) with
  | None => None
  | Some (scheme, after) =>
      if is_special scheme then
        let (hostname, rest) := take_until ["/"; "?"; "#"]%char (skip_slashes after) in
        if JsString.is_empty hostname then None
        else
          let (path, _) := take_until ["?"; "#"]%char rest in
          Some (mkURL (scheme +:+ ":") (if JsString.is_empty path then "/" else path))
      else
        let (path, _) := take_until ["?"; "#"]%char after in
        Some (mkURL (scheme +:+ ":") path)
  end.

(** The collaborators in memory: the rows of the User table, and the
    number of sessions created so far. *)
Record store : Type := mkStore {
  rows : list value;
  sessions : nat;
}.

Definition row_named (name : value) (row : value) : bool :=
  match member row "Username", name with
  | Ok (VString a), VString b => JsString.eqb a b
  | _, _ => false
  end.

Definition select (q : string) (args : list value) (s : store) : outcome D1Result * store :=
  (Ok (mkD1Result true (filter (row_named (nth 0 args VUndefined)) (rows s))), s).

Definition insert_row (q : string) (args : list value) (s : store) : outcome unit * store :=
  let row := VObject [ ("Username", nth 0 args VNull); ("Password", nth 1 args VNull);
                       ("FirstName", nth 2 args VNull); ("LastName", nth 3 args VNull) ] in
  (Ok tt, mkStore (rows s ++ [row]) (sessions s)).

(** A session service that names its sessions s0, s1, ... *)
Definition serve (r : Subrequest) (s : store) : outcome FetchResponse * store :=
  if JsString.eqb (sub_method r) "POST" then
    let id := "s" +:+ Number_toString 10 (N.of_nat (sessions s)) in
    (Ok (mkFetchResponse 200 (Ok id) (Throw SyntaxError)), mkStore (rows s) (S (sessions s)))
  else
    (Ok (mkFetchResponse 200 (Ok "{}") (Ok (VObject []))), s).

(** A session service that cannot be reached. *)
Definition serve_down (r : Subrequest) (s : store) : outcome FetchResponse * store :=
  (Throw (HostError "session service unreachable"), s).

(** A session service that answers with an error page and no id. *)
Definition serve_error (r : Subrequest) (s : store) : outcome FetchResponse * store :=
  (Ok (mkFetchResponse 500 (Ok EmptyString) (Throw SyntaxError)), s).

Definition env : Env store := mkEnv select insert_row serve.
Definition env_down : Env store := mkEnv select insert_row serve_down.
Definition env_error : Env store := mkEnv select insert_row serve_error.

Definition to_string (v : value) : outcome string :=
  match v with
  | VUndefined => Ok "undefined"
  | VNull => Ok "null"
  | VBoolean true => Ok "true"
  | VBoolean false => Ok "false"
  | VString s => Ok s
  | VObject _ => Ok "[object Object]"
  | _ => Throw (HostError "coercion left out of the sample")
  end.

Definition random_bytes (n : nat) (s : store) : list Byte.byte * store :=
  (map (fun i => match Byte.of_N (N.of_nat (7 * i + 3 * sessions s)) with
                 | Some b => b
                 | None => Byte.x00
                 end) (seq 0 n), s).

#[global] Instance runtime : Runtime store := {|
  URL_parse := parse_url;
  URL_parse_empty := eq_refl;
  TextEncoder_encode := String.list_byte_of_string;
  subtle_digest := fun data => rev data;
  ToString := to_string;
  crypto_getRandomValues := random_bytes;
|}.

Definition empty_world : World store := mkWorld (mkStore [] 0) [].

Definition request (m u : string) (hs : list (string * string)) (json : outcome value) : Request :=
  mkRequest m u (list_to_map (map (fun '(k, v) => (JsString.lower k, v)) hs)) json.

(** The requests of the examples. *)
Definition register_request : Request :=
  request "POST" "https://worker.example/register" [("Origin", "https://app.example")]
    (Ok (VObject [ ("username", VString "a"); ("password", VString "p");
                   ("firstName", VString "A") ])).

Definition register_without_password : Request :=
  request "POST" "https://worker.example/register" []
    (Ok (VObject [("username", VString "a"); ("password", VString EmptyString)])).

Definition register_null : Request :=
  request "POST" "https://worker.example/register" [] (Ok VNull).

Definition login_request : Request :=
  request "POST" "https://worker.example/login" [("Origin", "https://app.example")]
    (Ok (VObject [("username", VString "a"); ("password", VString "p")])).

Definition login_garbled : Request :=
  request "POST" "https://worker.example/login" [] (Throw SyntaxError).

Definition logout_request : Request :=
  request "POST" "https://worker.example/logout" [("Cookie", "theme=dark; cfw_session=s0")]
    (Throw SyntaxError).

Definition unmatched_request : Request :=
  request "GET" "https://worker.example/nowhere" [("Origin", "https://app.example")]
    (Throw SyntaxError).

(** What [fetch] answers to [unmatched_request]: the 404 of the
    dispatch, stamped. *)
Definition unmatched_response : Response :=
  stamp (Response_of (BodyText "Not Found") 404 ∅) "https://app.example".

(** The world after user [a] has registered. *)
Definition registered : World store :=
  Eval vm_compute in snd (Worker.handleRegister register_request env empty_world).

(** The row that the registration has stored. *)
Definition stored_row : value :=
  Eval vm_compute in nth 0 (rows (host registered)) VNull.

(** The hash in the stored row. *)
Definition stored_hash : string :=
  Eval vm_compute in match field stored_row "Password" with VString h => h | _ => EmptyString end.

(** More requests. *)
Definition load_user_request : Request :=
  request "GET" "https://worker.example/load-user"
    [("Origin", "https://app.example"); ("Cookie", "theme=dark; cfw_session=s0")]
    (Throw SyntaxError).

Definition anonymous_request : Request :=
  request "GET" "https://worker.example/load-user" [("Cookie", "theme=dark")]
    (Throw SyntaxError).

Definition forgot_request : Request :=
  request "POST" "https://worker.example/forgot-password" [] (Ok (VObject [])).

Definition preflight_request : Request :=
  request "OPTIONS" "https://worker.example/login"
    [ ("Origin", "https://app.example");
      ("Access-Control-Request-Method", "POST");
      ("Access-Control-Request-Headers", "content-type") ]
    (Throw SyntaxError).

Definition options_request : Request :=
  request "OPTIONS" "https://worker.example/login" [("Origin", "not a url")]
    (Throw SyntaxError).

Definition login_wrong_password : Request :=
  request "POST" "https://worker.example/login" []
    (Ok (VObject [("username", VString "a"); ("password", VString "q")])).

Definition login_unknown_user : Request :=
  request "POST" "https://worker.example/login" []
    (Ok (VObject [("username", VString "b"); ("password", VString "p")])).

Definition login_without_password : Request :=
  request "POST" "https://worker.example/login" []
    (Ok (VObject [("username", VString "a")])).



End Sample.

(** * Properties *)

(** ** Strings *)

Section StringFacts.
Import JsString.

Lemma append_nil (b : string) : EmptyString +:+ b = b.
Proof. reflexivity. Qed.

Lemma append_cons (c : ascii) (a b : string) : String c a +:+ b = String c (a +:+ b).
Proof. reflexivity. Qed.

Lemma contains_append (c : ascii) (a b : string) :
  contains c (a +:+ b) = contains c a || contains c b.
Proof.
  induction a as [|x a IH]; [reflexivity|].
  rewrite append_cons. simpl. rewrite IH. now rewrite orb_assoc.
Qed.

Lemma split_without (sep : ascii) (s : string) :
  contains sep s = false -> split sep s = [s].
Proof.
  induction s as [|x s IH]; simpl; intros Hc; [reflexivity|].
  apply orb_false_iff in Hc as [Hx Hs].
  rewrite Hx, (IH Hs). reflexivity.
Qed.

Lemma split_at_first (sep : ascii) (a b : string) :
  contains sep a = false ->
  split sep (a +:+ String sep b) = a :: split sep b.
Proof.
  induction a as [|x a IH]; intros Hc.
  - rewrite append_nil. simpl. unfold char_eqb. now rewrite Ascii.eqb_refl.
  - simpl in Hc. apply orb_false_iff in Hc as [Hx Ha].
    rewrite append_cons. simpl. rewrite Hx, (IH Ha). reflexivity.
Qed.

Lemma contains_join (c : ascii) (pieces : list string) :
  Forall (fun p => contains c p = false) pieces ->
  contains c (join EmptyString pieces) = false.
Proof.
  induction 1 as [|p rest Hp _ IH]; [reflexivity|].
  destruct rest as [|q rest]; [exact Hp|].
  change (join EmptyString (p :: q :: rest))
    with (p +:+ EmptyString +:+ join EmptyString (q :: rest)).
  rewrite append_nil, contains_append, Hp, IH. reflexivity.
Qed.

Lemma eqb_same (s : string) : eqb s s = true.
Proof. unfold eqb. apply String.eqb_refl. Qed.

Lemma eqb_true (a b : string) : eqb a b = true -> a = b.
Proof. unfold eqb. apply String.eqb_eq. Qed.

Lemma is_empty_true (s : string) : is_empty s = true -> s = EmptyString.
Proof. destruct s; simpl; [reflexivity | discriminate]. Qed.

End StringFacts.

(** ** Salts and digests as text *)

Lemma decimal_byte_no_colon (b : Byte.byte) :
  JsString.contains ":" (Number_toString 10 (Byte.to_N b)) = false.
Proof. destruct b; vm_compute; reflexivity. Qed.

Lemma hex_byte_no_colon (b : Byte.byte) :
  JsString.contains ":" (padStart 2 "0" (Number_toString 16 (Byte.to_N b))) = false.
Proof. destruct b; vm_compute; reflexivity. Qed.

Lemma salt_no_colon (random : list Byte.byte) :
  JsString.contains ":" (Uint8Array_join random) = false.
Proof.
  unfold Uint8Array_join. apply contains_join.
  apply Forall_map, Forall_forall. intros b _. apply decimal_byte_no_colon.
Qed.

Lemma hex_no_colon (hashArray : list Byte.byte) :
  JsString.contains ":" (hex_of_bytes hashArray) = false.
Proof.
  unfold hex_of_bytes. apply contains_join.
  apply Forall_map, Forall_forall. intros b _. apply hex_byte_no_colon.
Qed.

(** The stored form [salt:hex] splits back into the salt and the digest. *)
Lemma split_stored_hash (random hashArray : list Byte.byte) :
  JsString.split ":" (Uint8Array_join random +:+ ":" +:+ hex_of_bytes hashArray)
  = [Uint8Array_join random; hex_of_bytes hashArray].
Proof.
  change (":" +:+ hex_of_bytes hashArray) with (String ":" (hex_of_bytes hashArray)).
  rewrite split_at_first by apply salt_no_colon.
  rewrite split_without by apply hex_no_colon.
  reflexivity.
Qed.

Section PasswordFacts.
Context {W : Type} {RT : Runtime W}.
Import Worker.

(** C1. For every password P and every salt the entropy source may hand
    out, [hashPassword(P)] resolves to a stored hash that
    [comparePassword(P, _)] accepts. *)
Theorem hash_then_compare (P : string) (w : World W) :
  exists stored w',
    hashPassword (VString P) w = (Ok stored, w') /\
    comparePassword (VString P) (VString stored) = Ok true.
Proof.
  unfold hashPassword, bind, call, lift, ret.
  destruct (crypto_getRandomValues 16 (host w)) as [random s'] eqn:Hrandom.
  simpl. eexists _, _. split; [reflexivity|].
  unfold comparePassword. simpl.
  rewrite split_stored_hash. simpl.
  now rewrite eqb_same.
Qed.

End PasswordFacts.

(** ** Origin validation *)

Section OriginFacts.
Context {W : Type} {RT : Runtime W}.
Import Worker.

Lemma getValidatedOrigin_absent (request : Request) :
  Headers_get (req_headers request) "Origin" = None ->
  getValidatedOrigin request = Ok None.
Proof. unfold getValidatedOrigin. now intros ->. Qed.

Lemma getValidatedOrigin_parsed (request : Request) (origin : string) (u : URL) :
  Headers_get (req_headers request) "Origin" = Some origin ->
  URL_parse origin = Some u ->
  getValidatedOrigin request =
    Ok (if JsString.eqb (protocol u) "http:" || JsString.eqb (protocol u) "https:"
        then Some origin else None).
Proof.
  unfold getValidatedOrigin. intros -> ->.
  now destruct (JsString.eqb (protocol u) "http:" || JsString.eqb (protocol u) "https:").
Qed.

(** No handler surrounds [new URL(origin)]: its [TypeError] leaves the
    function. *)
Lemma getValidatedOrigin_malformed (request : Request) (origin : string) :
  Headers_get (req_headers request) "Origin" = Some origin ->
  URL_parse origin = None ->
  getValidatedOrigin request = Throw TypeError.
Proof. unfold getValidatedOrigin. now intros -> ->. Qed.

(** A validated origin is the header itself, and is not empty. *)
Lemma getValidatedOrigin_some (request : Request) (o : string) :
  getValidatedOrigin request = Ok (Some o) ->
  Headers_get (req_headers request) "Origin" = Some o /\ o <> EmptyString.
Proof.
  unfold getValidatedOrigin.
  destruct (Headers_get (req_headers request) "Origin") as [origin|]; [|discriminate].
  destruct (URL_parse origin) as [u|] eqn:Hu; [|discriminate].
  destruct (JsString.eqb (protocol u) "http:" || JsString.eqb (protocol u) "https:");
    intros [= <-].
  split; [reflexivity|]. intros ->. rewrite URL_parse_empty in Hu. discriminate.
Qed.

Lemma or_default_validated (request : Request) (origin : option string) :
  getValidatedOrigin request = Ok origin ->
  or_default origin "*" = match origin with Some o => o | None => "*" end.
Proof.
  destruct origin as [o|]; [|reflexivity]. intros [_ Hne]%getValidatedOrigin_some.
  destruct o; [congruence | reflexivity].
Qed.

End OriginFacts.

(** C3. On a request whose [Origin] header is [null], the value browsers
    send for an opaque origin, [getValidatedOrigin] does not answer [null]:
    it throws the [TypeError] of [new URL]. *)
Theorem getValidatedOrigin_throws_on_opaque_origin :
  Worker.getValidatedOrigin (RT := Sample.runtime)
    (Sample.request "GET" "https://worker.example/load-user" [("Origin", "null")] (Throw SyntaxError))
  = Throw TypeError.
Proof. reflexivity. Qed.

(** ** Cookie decoding *)

Section CookieFacts.
Import Worker.

Lemma sessionIdOfCookie_no_header : sessionIdOfCookie None = None.
Proof. reflexivity. Qed.

Lemma sessionIdOfCookie_no_entry (header : string) :
  find (JsString.startsWith "cfw_session=")
       (map JsString.trim (JsString.split ";" header)) = None ->
  sessionIdOfCookie (Some header) = None.
Proof.
  intros Hfind. unfold sessionIdOfCookie, truthy_string at 1.
  destruct (JsString.is_empty header); [reflexivity|].
  now rewrite Hfind.
Qed.

Lemma startsWith_append (p s : string) :
  JsString.startsWith p s = true -> exists rest, s = p +:+ rest.
Proof.
  revert s. induction p as [|a p IH]; intros s Hs.
  - exists s. reflexivity.
  - destruct s as [|b s]; [discriminate|]. simpl in Hs.
    apply andb_true_iff in Hs as [Hab Hps].
    apply Ascii.eqb_eq in Hab as ->.
    destruct (IH _ Hps) as [rest ->]. exists rest. reflexivity.
Qed.

(** What the decoder takes from the entry it has located: the text
    between the first [=] and the next one, or the end of the entry. *)
Lemma sessionIdOfCookie_entry (header v : string) :
  header <> EmptyString ->
  find (JsString.startsWith "cfw_session=")
       (map JsString.trim (JsString.split ";" header)) = Some ("cfw_session=" +:+ v) ->
  sessionIdOfCookie (Some header) = Some (hd EmptyString (JsString.split "=" v)).
Proof.
  intros Hne Hfind. unfold sessionIdOfCookie, truthy_string at 1.
  destruct (JsString.is_empty header) eqn:He.
  { apply is_empty_true in He. congruence. }
  rewrite Hfind. change (truthy_string (Some ("cfw_session=" +:+ v)))
    with (Some ("cfw_session" +:+ String "=" v)).
  cbv beta iota. rewrite split_at_first by reflexivity. simpl.
  destruct v as [|x v]; [reflexivity|]. simpl.
  destruct (JsString.char_eqb x "="); [reflexivity|].
  destruct (JsString.split "=" v); reflexivity.
Qed.

(** When the value holds no [=], that text is the whole value. *)
Lemma sessionIdOfCookie_plain_value (header v : string) :
  header <> EmptyString ->
  find (JsString.startsWith "cfw_session=")
       (map JsString.trim (JsString.split ";" header)) = Some ("cfw_session=" +:+ v) ->
  JsString.contains "=" v = false ->
  sessionIdOfCookie (Some header) = Some v.
Proof.
  intros Hne Hfind Hv. rewrite (sessionIdOfCookie_entry header v Hne Hfind).
  now rewrite split_without.
Qed.

End CookieFacts.

(** C6. The decoder does not take the entire text after the first [=]:
    from the entry [cfw_session=ab=cd] it takes [ab], where the value of
    the cookie is [ab=cd]. *)
Theorem sessionIdOfCookie_cuts_at_second_equals :
  Worker.sessionIdOfCookie (Some "theme=dark; cfw_session=ab=cd; lang=en") = Some "ab".
Proof. reflexivity. Qed.

(** ** Reading the fields of a body *)

Lemma member_field (v : value) (k : string) :
  nullish v = false -> member v k = Ok (field v k).
Proof.
  destruct v; simpl; try discriminate; try reflexivity.
  intros _. now destruct (own_property k props).
Qed.

Lemma member_nullish (v : value) (k : string) :
  nullish v = true -> member v k = Throw TypeError.
Proof. destruct v; simpl; try discriminate; reflexivity. Qed.

Lemma field_absent (props : list (string * value)) (k : string) :
  own_property k props = None -> field (VObject props) k = VUndefined.
Proof. simpl. now intros ->. Qed.

Lemma truthy_field_not_nullish (v : value) (k : string) :
  truthy (field v k) = true -> nullish v = false.
Proof. destruct v; simpl; try discriminate; reflexivity. Qed.

Lemma string_field_not_nullish (v : value) (k s : string) :
  field v k = VString s -> nullish v = false.
Proof. destruct v; simpl; try discriminate; reflexivity. Qed.

Lemma Response_new_plain (b : Body) (st : N) :
  Response_new b st [] = Ok (Response_of b st ∅).
Proof. reflexivity. Qed.

(** ** Registration *)

Section RegisterFacts.
Context {W : Type} {RT : Runtime W}.
Import Worker.

(** Everything in [handleRegister] sits in its [try]: it always returns. *)
Lemma handleRegister_returns (request : Request) (env : Env W) (w : World W) :
  exists r w', handleRegister request env w = (Ok r, w').
Proof.
  unfold handleRegister, try_catch.
  match goal with |- context [match ?m w with _ => _ end] => destruct (m w) as [[r|e] w'] end.
  - eauto.
  - unfold lift. rewrite Response_new_plain. eauto.
Qed.

(** A body whose fields cannot be read ends in the [catch]: 500, and
    nothing has left the worker. *)
Lemma handleRegister_nullish_body (request : Request) (env : Env W) (w : World W) (v : value) :
  req_json request = Ok v ->
  nullish v = true ->
  handleRegister request env w =
    (Ok (Response_of (json_error "Internal server error") 500 ∅), w).
Proof.
  intros Hjson Hv. unfold handleRegister, try_catch, bind, lift.
  rewrite Hjson, (member_nullish _ _ Hv). reflexivity.
Qed.

(** A falsy username or password stops [handleRegister] at the
    validation, before any call. *)
Lemma handleRegister_stops_at_validation
    (request : Request) (env : Env W) (w : World W) (v : value) :
  req_json request = Ok v ->
  nullish v = false ->
  truthy (field v "username") = false \/ truthy (field v "password") = false ->
  handleRegister request env w =
    (Ok (Response_of (json_error "Missing required fields") 400 ∅), w).
Proof.
  intros Hjson Hv Hmissing. unfold handleRegister, try_catch, bind, lift.
  rewrite Hjson, !(member_field _ _ Hv).
  assert (negb (truthy (field v "username")) || negb (truthy (field v "password")) = true)
    as -> by (destruct Hmissing as [-> | ->]; [reflexivity | apply orb_true_r]).
  reflexivity.
Qed.

(** C7, amended. When the body of a /register request parses as JSON to
    a value other than [null], and its username or its password is
    missing ([undefined]) or empty (or falsy in another way),
    [handleRegister] returns 400 and leaves the world as it found it: the
    log of calls has not grown, so no query and no insert were issued. *)
Theorem handleRegister_missing_fields
    (request : Request) (env : Env W) (w : World W) (v : value) :
  req_json request = Ok v ->
  nullish v = false ->
  truthy (field v "username") = false \/ truthy (field v "password") = false ->
  exists r,
    handleRegister request env w = (Ok r, w) /\
    status r = 400%N /\
    body r = json_error "Missing required fields".
Proof.
  intros Hjson Hv Hmissing.
  rewrite (handleRegister_stops_at_validation request env w v Hjson Hv Hmissing).
  eexists. split; [reflexivity|]. split; reflexivity.
Qed.

End RegisterFacts.

Section RegisterFlow.
Context {W : Type} {RT : Runtime W}.
Import Worker.

Variables (request : Request) (env : Env W) (w : World W) (v : value).
Hypothesis Hjson : req_json request = Ok v.
Hypothesis Hbody : nullish v = false.
Hypothesis Husername : truthy (field v "username") = true.
Hypothesis Hpassword : truthy (field v "password") = true.

Let username := field v "username".
Let password := field v "password".
Let firstName := field v "firstName".
Let lastName := field v "lastName".

(** Past the validation, what is left of [handleRegister]. *)
Lemma handleRegister_validated :
  handleRegister request env w =
    try_catch
      (existingUser <- d1_all env checkUserQuery [username] ;;
       if success existingUser && (0 <? length (results existingUser))%nat then
         lift (Response_new (json_error "User already exists") 409 [])
       else
         hashedPassword <- hashPassword password ;;
         _ <- d1_run env insertUserQuery
                [username; VString hashedPassword; firstName; lastName] ;;
         lift (Response_new (json_message "User registered successfully") 201 []))%js
      (fun error => lift (Response_new (json_error "Internal server error") 500 []))
      w.
Proof using Hjson Hbody Husername Hpassword.
  unfold handleRegister, try_catch. unfold bind at 1 2 3 4 5, lift at 1 2 3 4 5.
  rewrite Hjson, !(member_field _ _ Hbody), Husername, Hpassword.
  reflexivity.
Qed.


(** Whatever the store answers, the run of a validated request starts
    with the existence query, and does not end in 400. *)
Lemma handleRegister_validated_run :
  exists r w' more,
    handleRegister request env w = (Ok r, w') /\
    log w' = log w ++ D1All checkUserQuery [username] :: more /\
    status r <> 400%N.
Proof using Hjson Hbody Husername Hpassword.
  rewrite handleRegister_validated.
  unfold hashPassword, d1_all, d1_run, try_catch, bind, call, lift, ret.
  destruct (usersDB_all env checkUserQuery [username] (host w)) as [[found|e] s1].
  2: { eexists _, _, []. repeat split; simpl; discriminate. }
  destruct (success found && (0 <? length (results found))%nat).
  { eexists _, _, []. repeat split; simpl; discriminate. }
  simpl host.
  destruct (crypto_getRandomValues 16 s1) as [random s2].
  destruct (string_plus (Uint8Array_join random) password) as [text|e].
  2: { eexists _, _, [_]. repeat split; simpl; [now rewrite <- app_assoc | discriminate]. }
  simpl host.
  match goal with |- context [usersDB_run env ?q ?args s2] =>
    destruct (usersDB_run env q args s2) as [[[]|e] s3] end.
  - eexists _, _, [_; _]. repeat split; simpl; [now rewrite <- !app_assoc | discriminate].
  - eexists _, _, [_; _]. repeat split; simpl; [now rewrite <- !app_assoc | discriminate].
Qed.

(** Without a match, and with a password that is a string, the insert is
    issued with the four values as read from the body. *)
Lemma handleRegister_inserts (found : D1Result) (s1 : W) (pw : string) :
  usersDB_all env checkUserQuery [username] (host w) = (Ok found, s1) ->
  success found && (0 <? length (results found))%nat = false ->
  password = VString pw ->
  exists hashed,
    log (snd (handleRegister request env w)) =
      log w ++ [ D1All checkUserQuery [username];
                 RandomValues 16;
                 D1Run insertUserQuery [username; VString hashed; firstName; lastName] ].
Proof using Hjson Hbody Husername Hpassword.
  intros Hquery Hnone Hpw. rewrite handleRegister_validated.
  unfold hashPassword, d1_all, d1_run, try_catch, bind, call, lift, ret.
  rewrite Hquery, Hnone. simpl host.
  destruct (crypto_getRandomValues 16 s1) as [random s2].
  rewrite Hpw. simpl string_plus. cbv beta iota. simpl host.
  match goal with |- context [usersDB_run env ?q [_; VString ?h; _; _] s2] =>
    exists h; destruct (usersDB_run env q [username; VString h; firstName; lastName] s2)
      as [[[]|e] s3] end; simpl; now rewrite <- !app_assoc.
Qed.

End RegisterFlow.

Section RegisterClaims.
Context {W : Type} {RT : Runtime W}.
Import Worker.

Lemma handleRegister_unparsed (request : Request) (env : Env W) (w : World W) (e : exn) :
  req_json request = Throw e ->
  handleRegister request env w =
    (Ok (Response_of (json_error "Internal server error") 500 ∅), w).
Proof.
  intros Hjson. unfold handleRegister, try_catch, bind, lift.
  rewrite Hjson. reflexivity.
Qed.



End RegisterClaims.

Section RegisterNames.
Context {W : Type} {RT : Runtime W}.
Import Worker.

(** C10. A /register request whose body parses as JSON with a non-empty
    username and a non-empty password is never answered with 400,
    whatever its firstName and lastName: [handleRegister] reads the two
    names from the body and, once the existence query has answered
    without a match, hands them to the insert as they are - [undefined]
    when the body does not hold them. *)
Theorem handleRegister_names_unchecked
    (request : Request) (env : Env W) (w : World W) (v : value) :
  req_json request = Ok v ->
  truthy (field v "username") = true ->
  truthy (field v "password") = true ->
  (exists r w', handleRegister request env w = (Ok r, w') /\ status r <> 400%N) /\
  (forall found s1 pw,
      usersDB_all env checkUserQuery [field v "username"] (host w) = (Ok found, s1) ->
      success found && (0 <? length (results found))%nat = false ->
      field v "password" = VString pw ->
      exists hashed,
        log (snd (handleRegister request env w)) =
          log w ++ [ D1All checkUserQuery [field v "username"];
                     RandomValues 16;
                     D1Run insertUserQuery
                       [field v "username"; VString hashed;
                        field v "firstName"; field v "lastName"] ]).
Proof.
  intros Hjson Husername Hpassword.
  pose proof (truthy_field_not_nullish _ _ Husername) as Hbody. split.
  - destruct (handleRegister_validated_run request env w v Hjson Hbody Husername Hpassword)
      as (r & w' & more & Hrun & _ & Hstatus).
    now exists r, w'.
  - intros found s1 pw Hquery Hnone Hpw.
    now apply (handleRegister_inserts request env w v Hjson Hbody Husername Hpassword
                 found s1 pw).
Qed.

End RegisterNames.

(** ** Login *)

Lemma valid_header_value_append (a b : string) :
  valid_header_value (a +:+ b) = valid_header_value a && valid_header_value b.
Proof.
  unfold valid_header_value. rewrite !contains_append.
  destruct (JsString.contains "000" a), (JsString.contains "010" a),
    (JsString.contains "013" a), (JsString.contains "000" b),
    (JsString.contains "010" b), (JsString.contains "013" b); reflexivity.
Qed.

(** The headers of a successful login. *)
Lemma login_headers (o c : string) :
  valid_header_value o = true ->
  valid_header_value c = true ->
  Headers_new [ ("Access-Control-Allow-Origin", o);
                ("Content-Type", "application/json");
                ("Set-Cookie", c) ]
  = Ok (<["set-cookie" := c]>
         (<["content-type" := "application/json"]>
           (<["access-control-allow-origin" := o]> ∅))).
Proof.
  intros Ho Hc. unfold Headers_new, Headers_fill, Headers_append, outcome_bind.
  change (JsString.lower "Access-Control-Allow-Origin") with "access-control-allow-origin".
  change (JsString.lower "Content-Type") with "content-type".
  change (JsString.lower "Set-Cookie") with "set-cookie".
  rewrite Ho, Hc. change (valid_header_value "application/json") with true. cbv iota.
  rewrite lookup_empty.
  rewrite lookup_insert_ne by discriminate. rewrite lookup_empty.
  rewrite !lookup_insert_ne by discriminate. rewrite lookup_empty.
  reflexivity.
Qed.

Section LoginFacts.
Context {W : Type} {RT : Runtime W}.
Import Worker.

(** [comparePassword] answers only when the stored hash is a string. *)
Lemma comparePassword_reads_string (providedPassword storedHash : value) (b : bool) :
  comparePassword providedPassword storedHash = Ok b ->
  exists stored, storedHash = VString stored.
Proof.
  unfold comparePassword, split_stored.
  destruct storedHash; try discriminate. intros _. now eexists.
Qed.

(** C2. [request.json()] is awaited before the [try] of [handleLogin]
    opens: when it rejects, [handleLogin] rejects with the same error
    and no 401 response is built. *)
Theorem handleLogin_unparsed_body_escapes
    (request : Request) (env : Env W) (w : World W) (e : exn) :
  req_json request = Throw e ->
  handleLogin request env w = (Throw e, w).
Proof.
  intros Hjson. unfold handleLogin, bind, lift. rewrite Hjson. reflexivity.
Qed.


(** From the [try] on, every exception is caught: a request whose
    credentials could be read gets a response. *)
Lemma handleLogin_caught
    (request : Request) (env : Env W) (w : World W) (v : value) :
  req_json request = Ok v ->
  nullish v = false ->
  exists r w', handleLogin request env w = (Ok r, w').
Proof.
  intros Hjson Hv. unfold handleLogin. unfold bind at 1 2 3, lift at 1 2 3.
  rewrite Hjson, !(member_field _ _ Hv).
  unfold bind, try_catch.
  destruct (loginAttempt request env (field v "username") (field v "password") w)
    as [[[r|]|e] w1].
  - unfold ret. eauto.
  - unfold lift. rewrite Response_new_plain. eauto.
  - unfold call, ret, lift. rewrite Response_new_plain. eauto.
Qed.

(** An exception inside the [try] ends in 401 'Login failed'. *)
Lemma handleLogin_fails_closed
    (request : Request) (env : Env W) (w w1 : World W) (v : value) (e : exn) :
  req_json request = Ok v ->
  nullish v = false ->
  loginAttempt request env (field v "username") (field v "password") w = (Throw e, w1) ->
  handleLogin request env w =
    (Ok (Response_of (json_error "Login failed") 401 ∅),
     mkWorld (host w1) (log w1 ++ [ConsoleError e])).
Proof.
  intros Hjson Hv Hattempt. unfold handleLogin. unfold bind at 1 2 3, lift at 1 2 3.
  rewrite Hjson, !(member_field _ _ Hv).
  unfold bind, try_catch. rewrite Hattempt. reflexivity.
Qed.

End LoginFacts.

Section LoginFlow.
Context {W : Type} {RT : Runtime W}.
Import Worker.

Lemma session_cookie_valid (sessionId : string) :
  valid_header_value (session_cookie sessionId) = valid_header_value sessionId.
Proof.
  unfold session_cookie. rewrite !valid_header_value_append.
  change (valid_header_value "cfw_session=") with true.
  change (valid_header_value "; Secure; Path=/; SameSite=None; Max-Age=1800") with true.
  now rewrite andb_true_r.
Qed.

(** C9, amended. Take a /login request whose credentials match a stored
    user record, and whose [Origin] header is absent or passes
    [getValidatedOrigin]. When the session service answers the creation
    call with a text that a header may carry, [handleLogin] returns 200
    with [Set-Cookie: cfw_session=<id>; Secure; Path=/; SameSite=None;
    Max-Age=1800], where <id> is that text as the service gave it. *)
Theorem handleLogin_sets_session_cookie
    (request : Request) (env : Env W) (w : World W) (v : value)
    (found : D1Result) (s1 s2 : W) (user : value) (others : list value)
    (sessionResponse : FetchResponse) (sessionId : string) (origin : option string) :
  req_json request = Ok v ->
  truthy (field v "username") = true ->
  truthy (field v "password") = true ->
  usersDB_all env loginQuery [field v "username"] (host w) = (Ok found, s1) ->
  results found = user :: others ->
  comparePassword (field v "password") (field user "Password") = Ok true ->
  sessionService_fetch env (creation_request user) s1 = (Ok sessionResponse, s2) ->
  fr_text sessionResponse = Ok sessionId ->
  valid_header_value sessionId = true ->
  getValidatedOrigin request = Ok origin ->
  valid_header_value (or_default origin "*") = true ->
  exists r,
    handleLogin request env w =
      (Ok r, mkWorld s2 (log w ++ [ D1All loginQuery [field v "username"];
                                    ServiceFetch (creation_request user) ])) /\
    status r = 200%N /\
    body r = json_message "Login successful" /\
    Headers_get (headers r) "Set-Cookie" = Some (session_cookie sessionId).
Proof.
  intros Hjson Husername Hpassword Hquery Hresults Hmatch
    Hsession Htext Hid Horigin Hvalid.
  pose proof (truthy_field_not_nullish _ _ Husername) as Hbody.
  assert (nullish user = false) as Huser.
  { destruct (comparePassword_reads_string _ _ _ Hmatch) as [stored Hstored].
    exact (string_field_not_nullish _ _ _ Hstored). }
  unfold handleLogin. unfold bind at 1 2 3, lift at 1 2 3.
  rewrite Hjson, !(member_field _ _ Hbody).
  unfold loginAttempt. rewrite Husername, Hpassword.
  unfold d1_all, service_fetch, try_catch, bind, call, lift, ret.
  change (true && true) with true. cbv beta iota.
  rewrite Hquery. cbv beta iota. rewrite Hresults. cbv beta iota.
  rewrite !(member_field _ _ Huser), Hmatch. cbv beta iota.
  change (negb true) with false. cbv beta iota.
  simpl host. fold (creation_request user). rewrite Hsession. cbv beta iota.
  rewrite Htext, Horigin. cbv beta iota.
  change ("cfw_session=" +:+ sessionId +:+
          "; Secure; Path=/; SameSite=None; Max-Age=" +:+ Number_toString 10 (60 * 30))
    with (session_cookie sessionId).
  rewrite (login_headers _ _ Hvalid) by now rewrite session_cookie_valid.
  eexists. split; [simpl; now rewrite <- app_assoc|].
  unfold Response_of, Headers_get. simpl status. simpl body. simpl headers.
  split; [reflexivity|]. split; [reflexivity|].
  change (JsString.lower "Set-Cookie") with "set-cookie".
  rewrite lookup_insert_ne by discriminate. rewrite lookup_insert_eq.
  cbv iota. apply lookup_insert_eq.
Qed.

End LoginFlow.

(** ** Logout *)

Section LogoutFacts.
Context {W : Type} {RT : Runtime W}.
Import Worker.

Lemma logout_response_clears :
  status logout_response = 200%N /\
  body logout_response = json_message "Logout successful" /\
  Headers_get (headers logout_response) "Set-Cookie" = Some cleared_cookie.
Proof.
  split; [reflexivity|]. split; [reflexivity|].
  unfold logout_response, Response_of, Headers_get. simpl headers.
  change (JsString.lower "Set-Cookie") with "set-cookie".
  rewrite lookup_insert_ne by discriminate. rewrite lookup_empty.
  rewrite lookup_insert_ne by discriminate. apply lookup_insert_eq.
Qed.

Lemma handleLogout_without_session (request : Request) (env : Env W) (w : World W) :
  logout_session request = None ->
  handleLogout request env w = (Ok logout_response, w).
Proof.
  unfold logout_session. intros Hnone. unfold handleLogout. rewrite Hnone. reflexivity.
Qed.

(** The answer of the deletion call is not looked at. *)
Lemma handleLogout_with_session
    (request : Request) (env : Env W) (w : World W)
    (sid : string) (answer : FetchResponse) (s1 : W) :
  logout_session request = Some sid ->
  sessionService_fetch env (deletion_request sid) (host w) = (Ok answer, s1) ->
  handleLogout request env w =
    (Ok logout_response, mkWorld s1 (log w ++ [ServiceFetch (deletion_request sid)])).
Proof.
  unfold logout_session. intros Hsid Hcall. unfold handleLogout. rewrite Hsid.
  fold (deletion_request sid). unfold service_fetch, bind, call, ret, lift.
  rewrite Hcall. reflexivity.
Qed.

(** Nothing catches an exception of the deletion call. *)
Lemma handleLogout_propagates
    (request : Request) (env : Env W) (w : World W) (sid : string) (e : exn) (s1 : W) :
  logout_session request = Some sid ->
  sessionService_fetch env (deletion_request sid) (host w) = (Throw e, s1) ->
  handleLogout request env w =
    (Throw e, mkWorld s1 (log w ++ [ServiceFetch (deletion_request sid)])).
Proof.
  unfold logout_session. intros Hsid Hcall. unfold handleLogout. rewrite Hsid.
  fold (deletion_request sid). unfold service_fetch, bind, call, ret, lift.
  rewrite Hcall. reflexivity.
Qed.

(** C4, amended. For every /logout request: when no session id is
    decoded from the cookie, or the deletion call to the session service
    resolves to a response - whatever its status, an error status
    included - [handleLogout] returns 200 with body
    [{message: 'Logout successful'}] and the cookie-clearing
    [Set-Cookie] header. *)
Theorem handleLogout_succeeds_when_delete_answers
    (request : Request) (env : Env W) (w : World W) :
  (forall sid, logout_session request = Some sid ->
     exists answer s1,
       sessionService_fetch env (deletion_request sid) (host w) = (Ok answer, s1)) ->
  exists r w',
    handleLogout request env w = (Ok r, w') /\
    status r = 200%N /\
    body r = json_message "Logout successful" /\
    Headers_get (headers r) "Set-Cookie" = Some cleared_cookie.
Proof.
  intros Hanswers. destruct (logout_session request) as [sid|] eqn:Hsid.
  - destruct (Hanswers sid eq_refl) as (answer & s1 & Hcall).
    rewrite (handleLogout_with_session _ _ _ _ _ _ Hsid Hcall).
    eexists _, _. split; [reflexivity | apply logout_response_clears].
  - rewrite (handleLogout_without_session _ _ _ Hsid).
    eexists _, _. split; [reflexivity | apply logout_response_clears].
Qed.

End LogoutFacts.

(** ** The boundary *)

Section FetchFacts.
Context {W : Type} {RT : Runtime W}.
Import Worker.

Lemma stamp_headers (response : Response) (allowed_origin : string) :
  Headers_get (headers (stamp response allowed_origin)) "Access-Control-Allow-Origin"
    = Some allowed_origin /\
  Headers_get (headers (stamp response allowed_origin)) "Access-Control-Allow-Methods"
    = Some allowed_methods /\
  Headers_get (headers (stamp response allowed_origin)) "Access-Control-Allow-Credentials"
    = Some "true".
Proof.
  unfold Headers_get, stamp. simpl headers.
  change (JsString.lower "Access-Control-Allow-Origin") with "access-control-allow-origin".
  change (JsString.lower "Access-Control-Allow-Methods") with "access-control-allow-methods".
  change (JsString.lower "Access-Control-Allow-Credentials")
    with "access-control-allow-credentials".
  repeat split.
  - rewrite !lookup_insert_ne by discriminate. apply lookup_insert_eq.
  - rewrite lookup_insert_ne by discriminate. apply lookup_insert_eq.
  - apply lookup_insert_eq.
Qed.

(** When [fetch] returns, it returns the response of the handler with the
    three headers set. *)
Lemma fetch_returned
    (request : Request) (env : Env W) (w w' : World W) (r : Response) :
  fetch request env w = (Ok r, w') ->
  exists parsed response origin,
    URL_parse (url request) = Some parsed /\
    dispatch request env (pathname parsed) w = (Ok response, w') /\
    getValidatedOrigin request = Ok origin /\
    r = stamp response (or_default origin "*").
Proof.
  unfold fetch. destruct (URL_parse (url request)) as [parsed|] eqn:Hurl; [|discriminate].
  unfold bind, lift, ret.
  destruct (dispatch request env (pathname parsed) w) as [[response|e] w1] eqn:Hdispatch;
    [|discriminate].
  destruct (getValidatedOrigin request) as [origin|e] eqn:Horigin; [|discriminate].
  unfold Headers_set.
  destruct (valid_header_value (or_default origin "*")); [|discriminate].
  change (valid_header_value "GET, POST, PUT, DELETE, OPTIONS") with true.
  change (valid_header_value "true") with true. cbv iota.
  intros [= <- <-]. now exists parsed, response, origin.
Qed.

(** And it does return when the URL of the request parses, the handler
    returns, and the [Origin] header is absent or passes validation. *)
Lemma fetch_returns
    (request : Request) (env : Env W) (w w' : World W)
    (parsed : URL) (response : Response) (origin : option string) :
  URL_parse (url request) = Some parsed ->
  dispatch request env (pathname parsed) w = (Ok response, w') ->
  getValidatedOrigin request = Ok origin ->
  valid_header_value (or_default origin "*") = true ->
  fetch request env w = (Ok (stamp response (or_default origin "*")), w').
Proof.
  intros Hurl Hdispatch Horigin Hvalid. unfold fetch. rewrite Hurl.
  unfold bind, lift, ret. rewrite Hdispatch, Horigin. unfold Headers_set.
  rewrite Hvalid. reflexivity.
Qed.

(** C5. Whatever the request and whichever branch of the dispatch
    produced it - a handler, the 404 of an unmatched path, either answer
    to OPTIONS - the response that [fetch] returns carries
    [Access-Control-Allow-Origin] equal to the validated origin of the
    request, or [*] when validation yields none,
    [Access-Control-Allow-Methods] equal to the full verb list, and
    [Access-Control-Allow-Credentials: true]. *)
Theorem fetch_stamps_cors
    (request : Request) (env : Env W) (w w' : World W) (r : Response) :
  fetch request env w = (Ok r, w') ->
  exists origin,
    getValidatedOrigin request = Ok origin /\
    Headers_get (headers r) "Access-Control-Allow-Origin"
      = Some (match origin with Some o => o | None => "*" end) /\
    Headers_get (headers r) "Access-Control-Allow-Methods"
      = Some "GET, POST, PUT, DELETE, OPTIONS" /\
    Headers_get (headers r) "Access-Control-Allow-Credentials" = Some "true".
Proof.
  intros (parsed & response & origin & _ & _ & Horigin & ->)%fetch_returned.
  exists origin. split; [exact Horigin|].
  rewrite <- (or_default_validated _ _ Horigin). apply stamp_headers.
Qed.

End FetchFacts.

(** ** The worker on concrete requests *)

Section Runs.
Import Worker Sample.

Lemma handleLogin_unparsed_body_escapes_run :
  req_json login_garbled = Throw SyntaxError /\
  handleLogin login_garbled env registered = (Throw SyntaxError, registered).
Proof.
  split; [reflexivity|].
  apply (handleLogin_unparsed_body_escapes login_garbled env registered SyntaxError).
  reflexivity.
Defined.

(** A session service that cannot be reached makes [handleLogout]
    throw, where C4 promises 200. *)
Lemma handleLogout_throws_when_service_down :
  logout_session logout_request = Some "s0" /\
  fst (handleLogout logout_request env_down empty_world)
    = Throw (HostError "session service unreachable").
Proof. split; reflexivity. Qed.

Lemma handleLogout_succeeds_when_delete_answers_run :
  fr_status (mkFetchResponse 500 (Ok EmptyString) (Throw SyntaxError)) = 500%N /\
  exists r w',
    handleLogout logout_request env_error empty_world = (Ok r, w') /\
    status r = 200%N /\
    body r = json_message "Logout successful" /\
    Headers_get (headers r) "Set-Cookie" = Some cleared_cookie.
Proof.
  split; [reflexivity|].
  apply (handleLogout_succeeds_when_delete_answers logout_request env_error empty_world).
  intros sid _. eexists _, _. reflexivity.
Defined.

Lemma fetch_stamps_cors_run :
  fetch unmatched_request env empty_world = (Ok unmatched_response, empty_world) /\
  exists origin,
    getValidatedOrigin unmatched_request = Ok origin /\
    Headers_get (headers unmatched_response) "Access-Control-Allow-Origin"
      = Some (match origin with Some o => o | None => "*" end) /\
    Headers_get (headers unmatched_response) "Access-Control-Allow-Methods"
      = Some "GET, POST, PUT, DELETE, OPTIONS" /\
    Headers_get (headers unmatched_response) "Access-Control-Allow-Credentials"
      = Some "true".
Proof.
  assert (fetch unmatched_request env empty_world = (Ok unmatched_response, empty_world))
    as Hrun by (vm_compute; reflexivity).
  split; [exact Hrun|].
  exact (fetch_stamps_cors unmatched_request env empty_world empty_world
           unmatched_response Hrun).
Defined.

(** A body that is the JSON value [null] has no username and no
    password, and is answered with 500, where C7 promises 400. *)
Lemma handleRegister_null_body_is_500 :
  req_json register_null = Ok VNull /\
  exists r,
    handleRegister register_null env empty_world = (Ok r, empty_world) /\
    status r = 500%N /\
    body r = json_error "Internal server error".
Proof. split; [reflexivity|]. eexists. repeat split. Qed.

Lemma handleRegister_missing_fields_run :
  field (VObject [("username", VString "a"); ("password", VString EmptyString)]) "password"
    = VString EmptyString /\
  exists r,
    handleRegister register_without_password env registered = (Ok r, registered) /\
    status r = 400%N /\
    body r = json_error "Missing required fields".
Proof.
  split; [reflexivity|].
  apply (handleRegister_missing_fields register_without_password env registered
           (VObject [("username", VString "a"); ("password", VString EmptyString)])).
  - reflexivity.
  - reflexivity.
  - right. reflexivity.
Defined.


Lemma handleRegister_names_unchecked_run :
  exists r w',
    handleRegister register_request env empty_world = (Ok r, w') /\ status r <> 400%N.
Proof.
  apply (handleRegister_names_unchecked register_request env empty_world
           (VObject [ ("username", VString "a"); ("password", VString "p");
                      ("firstName", VString "A") ])); reflexivity.
Defined.

(** The body of [register_request] holds no lastName: the insert is
    issued with [undefined] in its place. *)
Lemma register_passes_undefined_last_name :
  exists hashed,
    log registered =
      [ D1All checkUserQuery [VString "a"];
        RandomValues 16;
        D1Run insertUserQuery [VString "a"; VString hashed; VString "A"; VUndefined] ].
Proof. eexists. reflexivity. Qed.

Lemma handleLogin_sets_session_cookie_run :
  exists r,
    handleLogin login_request env registered =
      (Ok r, mkWorld (mkStore [stored_row] 1)
               (log registered ++ [ D1All loginQuery [VString "a"];
                                    ServiceFetch (creation_request stored_row) ])) /\
    status r = 200%N /\
    body r = json_message "Login successful" /\
    Headers_get (headers r) "Set-Cookie" = Some (session_cookie "s0").
Proof.
  apply (handleLogin_sets_session_cookie login_request env registered
           (VObject [("username", VString "a"); ("password", VString "p")])
           (mkD1Result true [stored_row]) (host registered) (mkStore [stored_row] 1)
           stored_row [] (mkFetchResponse 200 (Ok "s0") (Throw SyntaxError)) "s0"
           (Some "https://app.example")); reflexivity.
Defined.

(** Matching credentials do not always end in 200 and a cookie with a
    session id: when the session service cannot be reached the answer
    is 401 without a cookie, and when it answers with an empty text the
    cookie carries an empty id. *)
Lemma handleLogin_matching_credentials_without_session :
  comparePassword (VString "p") (field stored_row "Password") = Ok true /\
  (exists r,
     fst (handleLogin login_request env_down registered) = Ok r /\
     status r = 401%N /\
     body r = json_error "Login failed" /\
     Headers_get (headers r) "Set-Cookie" = None) /\
  (exists r,
     fst (handleLogin login_request env_error registered) = Ok r /\
     status r = 200%N /\
     Headers_get (headers r) "Set-Cookie"
       = Some "cfw_session=; Secure; Path=/; SameSite=None; Max-Age=1800").
Proof.
  split; [reflexivity|]. split.
  - eexists. split; [vm_compute; reflexivity|]. repeat split.
  - eexists. split; [vm_compute; reflexivity|]. repeat split.
Qed.

End Runs.

(** ** Text helpers on concrete inputs *)

Example split_examples :
  JsString.split ":" "12:ab:" = ["12"; "ab"; ""] /\
  JsString.split ";" EmptyString = [EmptyString] /\
  JsString.split "=" "cfw_session=ab=cd" = ["cfw_session"; "ab"; "cd"].
Proof. repeat split. Qed.

Example trim_example : JsString.trim "  a b  " = "a b".
Proof. reflexivity. Qed.

Example bytes_as_text :
  Uint8Array_join [Byte.x00; Byte.xff; Byte.x0a] = "025510" /\
  hex_of_bytes [Byte.x00; Byte.xff; Byte.x0a] = "00ff0a".
Proof. split; reflexivity. Qed.

Example parse_url_examples :
  Sample.parse_url "https://Worker.example/login?x=1" = Some (mkURL "https:" "/login") /\
  Sample.parse_url "https://app.example" = Some (mkURL "https:" "/") /\
  Sample.parse_url "ftp://files.example/pub" = Some (mkURL "ftp:" "/pub") /\
  Sample.parse_url "null" = None /\
  Sample.parse_url "not a url" = None.
Proof. repeat split. Qed.

(** * Further properties *)

(** ** Text of salts and digests *)

Section TextFacts.
Import JsString.

Lemma append_empty_right (s : string) : s +:+ EmptyString = s.
Proof.
  induction s as [|c s IH]; [reflexivity|].
  rewrite append_cons. now rewrite IH.
Qed.

Lemma append_associative (a b c : string) : (a +:+ b) +:+ c = a +:+ (b +:+ c).
Proof.
  induction a as [|x a IH]; [reflexivity|].
  rewrite !append_cons. now rewrite IH.
Qed.

Lemma length_append (a b : string) :
  String.length (a +:+ b) = (String.length a + String.length b)%nat.
Proof.
  induction a as [|x a IH]; [reflexivity|].
  rewrite append_cons. simpl. now rewrite IH.
Qed.

Lemma all_chars_append (p : ascii -> bool) (a b : string) :
  all_chars p (a +:+ b) = all_chars p a && all_chars p b.
Proof.
  induction a as [|x a IH]; [reflexivity|].
  rewrite append_cons. simpl. rewrite IH. now rewrite andb_assoc.
Qed.

Lemma join_empty_cons (p : string) (rest : list string) :
  join EmptyString (p :: rest) = p +:+ join EmptyString rest.
Proof.
  destruct rest as [|q rest]; simpl join.
  - now rewrite append_empty_right.
  - now rewrite append_nil.
Qed.

Lemma join_empty_app (a b : list string) :
  join EmptyString (a ++ b) = join EmptyString a +:+ join EmptyString b.
Proof.
  induction a as [|p a IH]; [reflexivity|].
  rewrite <- app_comm_cons, !join_empty_cons, IH. now rewrite append_associative.
Qed.

End TextFacts.

Lemma decimal_byte_text (b : Byte.byte) :
  all_chars is_decimal_digit (Number_toString 10 (Byte.to_N b)) = true /\
  (1 <= String.length (Number_toString 10 (Byte.to_N b)) <= 3)%nat.
Proof. destruct b; vm_compute; (split; [reflexivity | lia]). Qed.

Lemma hex_byte_text (b : Byte.byte) :
  all_chars is_hex_digit (padStart 2 "0" (Number_toString 16 (Byte.to_N b))) = true /\
  String.length (padStart 2 "0" (Number_toString 16 (Byte.to_N b))) = 2%nat.
Proof. destruct b; vm_compute; (split; reflexivity). Qed.

Lemma bytes_of_hex_byte (b : Byte.byte) (rest : string) :
  bytes_of_hex (padStart 2 "0" (Number_toString 16 (Byte.to_N b)) +:+ rest) =
    match bytes_of_hex rest with
    | Some bs => Some (b :: bs)
    | None => None
    end.
Proof. destruct b; reflexivity. Qed.

(** The hexadecimal text of a digest can be read back. *)
Lemma bytes_of_hex_of_bytes (hashArray : list Byte.byte) :
  bytes_of_hex (hex_of_bytes hashArray) = Some hashArray.
Proof.
  unfold hex_of_bytes. induction hashArray as [|b bs IH]; [reflexivity|].
  rewrite map_cons, join_empty_cons, bytes_of_hex_byte. now rewrite IH.
Qed.

Lemma hex_of_bytes_injective (a b : list Byte.byte) :
  hex_of_bytes a = hex_of_bytes b -> a = b.
Proof.
  intros Heq. apply (f_equal bytes_of_hex) in Heq.
  rewrite !bytes_of_hex_of_bytes in Heq. now injection Heq.
Qed.

Lemma salt_text (random : list Byte.byte) :
  all_chars is_decimal_digit (Uint8Array_join random) = true /\
  (length random <= String.length (Uint8Array_join random) <= 3 * length random)%nat.
Proof.
  unfold Uint8Array_join. induction random as [|b bs [IHd IHl]]; [split; [reflexivity | simpl; lia]|].
  rewrite map_cons, join_empty_cons, all_chars_append, length_append.
  destruct (decimal_byte_text b) as [Hd Hl]. rewrite Hd, IHd. simpl length. split; [reflexivity | lia].
Qed.

Lemma hex_text (hashArray : list Byte.byte) :
  all_chars is_hex_digit (hex_of_bytes hashArray) = true /\
  String.length (hex_of_bytes hashArray) = (2 * length hashArray)%nat.
Proof.
  unfold hex_of_bytes. induction hashArray as [|b bs [IHd IHl]]; [split; reflexivity|].
  rewrite map_cons, join_empty_cons, all_chars_append, length_append.
  destruct (hex_byte_text b) as [Hd Hl]. rewrite Hd, IHd, Hl, IHl. simpl length. split; [reflexivity | lia].
Qed.

(** ** More on passwords *)

Section PasswordShape.
Context {W : Type} {RT : Runtime W}.
Import Worker.

(** X1. When the entropy source fills the sixteen bytes asked for, the
    hash that [hashPassword] resolves to has the form [salt:hex]: the salt
    is 16 to 48 decimal digits, the second part is the digest of
    salt+password written as two lower-case hexadecimal digits per byte,
    and neither part holds a colon. *)
Theorem hashPassword_stored_format (P : string) (w : World W) (random : list Byte.byte) (s' : W) :
  crypto_getRandomValues 16 (host w) = (random, s') ->
  length random = 16%nat ->
  exists salt hexDigest,
    fst (hashPassword (VString P) w) = Ok (salt +:+ ":" +:+ hexDigest) /\
    all_chars is_decimal_digit salt = true /\
    (16 <= String.length salt <= 48)%nat /\
    hexDigest = hex_of_bytes (subtle_digest (TextEncoder_encode (salt +:+ P))) /\
    all_chars is_hex_digit hexDigest = true /\
    String.length hexDigest
      = (2 * length (subtle_digest (TextEncoder_encode (salt +:+ P))))%nat.
Proof.
  intros Hrandom Hlen. unfold hashPassword, bind, call, lift, ret. rewrite Hrandom. simpl.
  exists (Uint8Array_join random),
    (hex_of_bytes (subtle_digest (TextEncoder_encode (Uint8Array_join random +:+ P)))).
  split; [reflexivity|].
  destruct (salt_text random) as [Hd Hl]. rewrite Hlen in Hl.
  split; [exact Hd|]. split; [lia|]. split; [reflexivity|]. apply hex_text.
Qed.

(** X2. Against a hash that [hashPassword] made for P, [comparePassword]
    never throws, and it accepts a password P' exactly when salt+P' and
    salt+P have the same digest: a wrong password passes only on a
    collision of the digest. *)
Theorem comparePassword_accepts_iff_same_digest
    (P P' : string) (w w' : World W) (stored : string) :
  hashPassword (VString P) w = (Ok stored, w') ->
  exists salt,
    salt = Uint8Array_join (fst (crypto_getRandomValues 16 (host w))) /\
    (exists accepted, comparePassword (VString P') (VString stored) = Ok accepted) /\
    (comparePassword (VString P') (VString stored) = Ok true <->
     subtle_digest (TextEncoder_encode (salt +:+ P'))
     = subtle_digest (TextEncoder_encode (salt +:+ P))).
Proof.
  unfold hashPassword, bind, call, lift, ret.
  destruct (crypto_getRandomValues 16 (host w)) as [random s1]. simpl.
  intros [= <- _]. exists (Uint8Array_join random). split; [reflexivity|].
  unfold comparePassword. simpl. rewrite split_stored_hash. simpl.
  split; [eauto|]. split.
  - intros [= Heq]. now apply eqb_true, hex_of_bytes_injective in Heq.
  - intros ->. now rewrite eqb_same.
Qed.

(** X3. A stored hash without a colon is rejected, not an error:
    [comparePassword] answers false for every password. *)
Theorem comparePassword_rejects_hash_without_colon (P stored : string) :
  JsString.contains ":" stored = false ->
  comparePassword (VString P) (VString stored) = Ok false.
Proof.
  intros Hno. unfold comparePassword. simpl. now rewrite (split_without _ _ Hno).
Qed.

End PasswordShape.

(** X4. The text of the salt does not tell the bytes it was made from:
    bytes 1, 23 and bytes 12, 3 are written with the same digits, whatever
    surrounds them. *)
Theorem Uint8Array_join_ambiguous (before after : list Byte.byte) :
  Uint8Array_join (before ++ [Byte.x01; Byte.x17] ++ after)
  = Uint8Array_join (before ++ [Byte.x0c; Byte.x03] ++ after).
Proof.
  unfold Uint8Array_join. rewrite !map_app, !join_empty_app. reflexivity.
Qed.

(** ** More on cookies *)

Section CookieShape.
Import JsString Worker.

Lemma split_pieces_clean (sep : ascii) (s : string) :
  Forall (fun p => contains sep p = false) (split sep s).
Proof.
  induction s as [|c s IH]; simpl.
  - constructor; [reflexivity | constructor].
  - destruct (char_eqb c sep) eqn:Hc.
    + constructor; [reflexivity | exact IH].
    + destruct (split sep s) as [|piece pieces].
      * constructor; [simpl; now rewrite Hc | constructor].
      * inversion IH as [|? ? Hpiece Hpieces]; subst.
        constructor; [simpl; now rewrite Hc, Hpiece | exact Hpieces].
Qed.

Lemma split_keeps_clean (c sep : ascii) (s : string) :
  contains c s = false ->
  Forall (fun p => contains c p = false) (split sep s).
Proof.
  induction s as [|x s IH]; simpl; intros Hs.
  - constructor; [reflexivity | constructor].
  - apply orb_false_iff in Hs as [Hx Hs]. specialize (IH Hs).
    destruct (char_eqb x sep).
    + constructor; [reflexivity | exact IH].
    + destruct (split sep s) as [|piece pieces].
      * constructor; [simpl; now rewrite Hx | constructor].
      * inversion IH as [|? ? Hpiece Hpieces]; subst.
        constructor; [simpl; now rewrite Hx, Hpiece | exact Hpieces].
Qed.

Lemma trimStart_keeps_clean (c : ascii) (s : string) :
  contains c s = false -> contains c (trimStart s) = false.
Proof.
  induction s as [|x s IH]; simpl; intros Hs; [reflexivity|].
  apply orb_false_iff in Hs as [Hx Hs].
  destruct (is_white x); [now apply IH | simpl; now rewrite Hx, Hs].
Qed.

Lemma trimEnd_keeps_clean (c : ascii) (s : string) :
  contains c s = false -> contains c (trimEnd s) = false.
Proof.
  induction s as [|x s IH]; simpl; intros Hs; [reflexivity|].
  apply orb_false_iff in Hs as [Hx Hs]. specialize (IH Hs).
  destruct (trimEnd s) as [|y kept].
  - destruct (is_white x); [reflexivity | simpl; now rewrite Hx].
  - simpl. rewrite Hx. exact IH.
Qed.

Lemma trim_keeps_clean (c : ascii) (s : string) :
  contains c s = false -> contains c (trim s) = false.
Proof. intros Hs. unfold trim. now apply trimEnd_keeps_clean, trimStart_keeps_clean. Qed.

Lemma truthy_string_some (x : option string) (s : string) :
  truthy_string x = Some s -> x = Some s /\ s <> EmptyString.
Proof.
  destruct x as [t|]; simpl; [|discriminate].
  destruct t; simpl; [discriminate|]. intros [= <-]. split; [reflexivity | discriminate].
Qed.

(** X5. A session id that the decoder returns holds neither [=] nor
    [;], whatever the Cookie header was. *)
Theorem sessionIdOfCookie_id_is_clean (cookieHeader : option string) (sid : string) :
  sessionIdOfCookie cookieHeader = Some sid ->
  contains "=" sid = false /\ contains ";" sid = false.
Proof.
  unfold sessionIdOfCookie.
  destruct (truthy_string cookieHeader) as [header|]; [|discriminate].
  destruct (truthy_string (find (startsWith "cfw_session=") (map trim (split ";" header))))
    as [sessionCookie|] eqn:Hfound; [|discriminate].
  apply truthy_string_some in Hfound as [Hfind _].
  apply find_some in Hfind as [Hin _].
  apply in_map_iff in Hin as (piece & <- & Hpiece).
  intros Hsid%nth_error_In.
  pose proof (split_pieces_clean ";" header) as Hclean.
  rewrite List.Forall_forall in Hclean. specialize (Hclean _ Hpiece).
  apply (trim_keeps_clean ";") in Hclean.
  pose proof (split_pieces_clean "=" (trim piece)) as Heq.
  pose proof (split_keeps_clean ";" "=" (trim piece) Hclean) as Hsemi.
  rewrite List.Forall_forall in Heq, Hsemi. split; [now apply Heq | now apply Hsemi].
Qed.

Lemma split_join (sep : ascii) (entries : list string) :
  entries <> [] ->
  Forall (fun p => contains sep p = false) entries ->
  split sep (join (String sep EmptyString) entries) = entries.
Proof.
  intros Hne Hclean. induction Hclean as [|p rest Hp Hrest IH]; [congruence|].
  destruct rest as [|q rest].
  - simpl. now apply split_without.
  - change (join (String sep EmptyString) (p :: q :: rest))
      with (p +:+ String sep (join (String sep EmptyString) (q :: rest))).
    rewrite (split_at_first _ _ _ Hp). f_equal. apply IH. discriminate.
Qed.

Lemma find_past (f : string -> bool) (before : list string) (x : string) (after : list string) :
  Forall (fun y => f y = false) before ->
  f x = true ->
  find f (before ++ x :: after) = Some x.
Proof.
  intros Hbefore Hx. induction Hbefore as [|y before Hy _ IH]; simpl.
  - now rewrite Hx.
  - now rewrite Hy.
Qed.

Lemma startsWith_prefix (p s : string) : startsWith p (p +:+ s) = true.
Proof.
  induction p as [|a p IH]; [reflexivity|].
  rewrite append_cons. simpl. unfold char_eqb. now rewrite Ascii.eqb_refl.
Qed.

(** X6. The cookie round trip. In a Cookie header made of entries joined
    by [;], the decoder returns the value of the first entry that, once
    trimmed, reads [cfw_session=<id>], as long as the id holds no [=]:
    the entries around it and the white space around the entry do not
    matter. *)
Theorem sessionIdOfCookie_among_cookies
    (before after : list string) (entry sid : string) :
  Forall (fun x => contains ";" x = false) (before ++ entry :: after) ->
  Forall (fun x => startsWith "cfw_session=" (trim x) = false) before ->
  trim entry = "cfw_session=" +:+ sid ->
  contains "=" sid = false ->
  sessionIdOfCookie (Some (join ";" (before ++ entry :: after))) = Some sid.
Proof.
  intros Hclean Hbefore Hentry Hsid.
  assert (split ";" (join ";" (before ++ entry :: after)) = before ++ entry :: after)
    as Hsplit by (apply split_join; [now destruct before | exact Hclean]).
  apply sessionIdOfCookie_plain_value; [| |exact Hsid].
  - intros Hempty. rewrite Hempty in Hsplit. simpl in Hsplit.
    destruct before as [|b [|b' before]]; try discriminate.
    injection Hsplit as <- _. discriminate.
  - rewrite Hsplit, map_app, map_cons, <- Hentry. apply find_past.
    + clear -Hbefore. induction Hbefore; simpl; constructor; assumption.
    + rewrite Hentry. apply startsWith_prefix.
Qed.

End CookieShape.

(** ** Building headers *)

Ltac lower_names :=
  repeat match goal with
  | |- context [JsString.lower ?s] =>
      let s' := eval vm_compute in (JsString.lower s) in
      change (JsString.lower s) with s'
  end.

Ltac literal_values :=
  repeat match goal with
  | |- context [valid_header_value ?s] =>
      let b := eval vm_compute in (valid_header_value s) in
      lazymatch b with
      | true => change (valid_header_value s) with true
      | false => change (valid_header_value s) with false
      end
  end.

Ltac fresh_names :=
  repeat (rewrite ?lookup_insert_ne by discriminate; rewrite lookup_empty; cbv beta iota).


(** ** Loading the user *)

Section LoadUserFacts.
Context {W : Type} {RT : Runtime W}.
Import Worker.

(** X7. Without a session id - no Cookie header, no [cfw_session] entry,
    or an empty value - [handleLoadUser] answers 401 with
    [{error: 'User not logged in'}] and calls nobody: the world is left
    as it was. *)
Theorem handleLoadUser_without_session (request : Request) (env : Env W) (w : World W) :
  load_session request = None ->
  exists r,
    handleLoadUser request env w = (Ok r, w) /\
    status r = 401%N /\
    body r = json_error "User not logged in".
Proof.
  unfold load_session. intros Hnone. unfold handleLoadUser. rewrite Hnone.
  eexists. split; [reflexivity|]. split; reflexivity.
Qed.


(** X9. [handleLoadUser] catches nothing: when the call to the session
    service throws, or its answer cannot be read as JSON, the handler
    throws the same exception. *)
Theorem handleLoadUser_propagates
    (request : Request) (env : Env W) (w : World W) (sid : string) (e : exn) :
  load_session request = Some sid ->
  (exists s1, sessionService_fetch env (load_request sid) (host w) = (Throw e, s1)) \/
  (exists answer s1,
     sessionService_fetch env (load_request sid) (host w) = (Ok answer, s1) /\
     fr_json answer = Throw e) ->
  fst (handleLoadUser request env w) = Throw e.
Proof.
  unfold load_session. intros Hsid Hfail.
  unfold handleLoadUser. rewrite Hsid. fold (load_request sid).
  unfold service_fetch, bind, call, lift.
  destruct Hfail as [[s1 Hcall] | (answer & s1 & Hcall & Hjson)]; rewrite Hcall.
  - reflexivity.
  - now rewrite Hjson.
Qed.

End LoadUserFacts.

(** ** Forgotten passwords *)

Section ForgotPasswordFacts.
Context {W : Type} {RT : Runtime W}.
Import Worker.

(** X10. [handleForgotPassword] is a stub: whenever the body parses as
    JSON to a value other than [null] it answers 200 with
    [{message: 'Password reset initiated'}], whether the body holds an
    email or not, and it calls neither the user store nor the session
    service: the world is left as it was. *)
Theorem handleForgotPassword_is_a_stub
    (request : Request) (env : Env W) (w : World W) (data : value) :
  req_json request = Ok data ->
  nullish data = false ->
  exists r,
    handleForgotPassword request env w = (Ok r, w) /\
    status r = 200%N /\
    body r = json_message "Password reset initiated".
Proof.
  intros Hjson Hdata. unfold handleForgotPassword, bind, lift.
  rewrite Hjson, (member_field _ _ Hdata).
  eexists. split; [reflexivity|]. split; reflexivity.
Qed.

End ForgotPasswordFacts.

(** ** Preflight *)

Lemma or_default_empty (h : string) : or_default (Some h) EmptyString = h.
Proof. destruct h; reflexivity. Qed.

(** The object that [handleOptions] builds for a preflight answer. *)
Lemma preflight_object (h o : string) :
  Worker.object_set "Access-Control-Allow-Origin" o
    (Worker.object_set "X-Content-Type-Options" "nosniff"
      (Worker.object_set "Content-Type" "text/plain"
        (Worker.object_set "Access-Control-Allow-Headers" h Worker.corsHeaders)))
  = [ ("Access-Control-Allow-Origin", o);
      ("Access-Control-Allow-Methods", "GET,HEAD,POST,OPTIONS");
      ("Access-Control-Max-Age", "86400");
      ("Access-Control-Allow-Credentials", "true");
      ("Access-Control-Allow-Headers", h);
      ("Content-Type", "text/plain");
      ("X-Content-Type-Options", "nosniff") ].
Proof. reflexivity. Qed.

Lemma preflight_headers (h o : string) :
  valid_header_value h = true ->
  valid_header_value o = true ->
  Headers_new [ ("Access-Control-Allow-Origin", o);
                ("Access-Control-Allow-Methods", "GET,HEAD,POST,OPTIONS");
                ("Access-Control-Max-Age", "86400");
                ("Access-Control-Allow-Credentials", "true");
                ("Access-Control-Allow-Headers", h);
                ("Content-Type", "text/plain");
                ("X-Content-Type-Options", "nosniff") ]
  = Ok (<["x-content-type-options" := "nosniff"]>
         (<["content-type" := "text/plain"]>
           (<["access-control-allow-headers" := h]>
             (<["access-control-allow-credentials" := "true"]>
               (<["access-control-max-age" := "86400"]>
                 (<["access-control-allow-methods" := "GET,HEAD,POST,OPTIONS"]>
                   (<["access-control-allow-origin" := o]> ∅))))))).
Proof.
  intros Hh Ho. unfold Headers_new, Headers_fill, Headers_append, outcome_bind.
  lower_names. rewrite Hh, Ho. literal_values. cbv beta iota. fresh_names. reflexivity.
Qed.

Section OptionsFacts.
Context {W : Type} {RT : Runtime W}.
Import Worker.

(** X11. A preflight request that carries Origin,
    Access-Control-Request-Method and Access-Control-Request-Headers, and
    whose Origin header parses as a URL, is answered by
    [handleOptions] with an empty body and the headers of [corsHeaders]:
    the validated origin (or [*]), the methods GET,HEAD,POST,OPTIONS, a
    max age of 86400, credentials allowed, and the requested headers
    echoed. *)
Theorem handleOptions_preflight
    (request : Request) (o m h : string) (origin : option string) :
  Headers_get (req_headers request) "Origin" = Some o ->
  Headers_get (req_headers request) "Access-Control-Request-Method" = Some m ->
  Headers_get (req_headers request) "Access-Control-Request-Headers" = Some h ->
  getValidatedOrigin request = Ok origin ->
  valid_header_value h = true ->
  valid_header_value (or_default origin "*") = true ->
  exists r,
    handleOptions request = Ok r /\
    status r = 200%N /\
    body r = BodyNull /\
    Headers_get (headers r) "Access-Control-Allow-Origin"
      = Some (match origin with Some validated => validated | None => "*" end) /\
    Headers_get (headers r) "Access-Control-Allow-Methods" = Some "GET,HEAD,POST,OPTIONS" /\
    Headers_get (headers r) "Access-Control-Max-Age" = Some "86400" /\
    Headers_get (headers r) "Access-Control-Allow-Credentials" = Some "true" /\
    Headers_get (headers r) "Access-Control-Allow-Headers" = Some h /\
    Headers_get (headers r) "Content-Type" = Some "text/plain" /\
    Headers_get (headers r) "X-Content-Type-Options" = Some "nosniff".
Proof.
  intros Ho Hm Hh Horigin Hvalid_h Hvalid_o. unfold handleOptions.
  rewrite Ho, Hm, Hh, !bool_decide_eq_true_2 by discriminate.
  rewrite Horigin. unfold outcome_bind. rewrite or_default_empty, preflight_object.
  unfold Response_new. rewrite (preflight_headers _ _ Hvalid_h Hvalid_o). unfold outcome_bind.
  eexists. split; [reflexivity|]. unfold Response_of, Headers_get. simpl status. simpl body.
  simpl headers. rewrite <- (or_default_validated _ _ Horigin). lower_names.
  split; [reflexivity|]. split; [reflexivity|].
  repeat split; rewrite ?lookup_insert_ne by discriminate; apply lookup_insert_eq.
Qed.

(** X12. An OPTIONS request that lacks one of the three preflight
    headers gets the plain answer: [Allow: GET, HEAD, POST, OPTIONS], no
    [Access-Control-Allow-Origin], and no look at the origin at all, so
    that a malformed Origin header cannot make [handleOptions] throw. *)
Theorem handleOptions_plain (request : Request) :
  Headers_get (req_headers request) "Origin" = None \/
  Headers_get (req_headers request) "Access-Control-Request-Method" = None \/
  Headers_get (req_headers request) "Access-Control-Request-Headers" = None ->
  exists r,
    handleOptions request = Ok r /\
    status r = 200%N /\
    body r = BodyNull /\
    Headers_get (headers r) "Allow" = Some "GET, HEAD, POST, OPTIONS" /\
    Headers_get (headers r) "Content-Type" = Some "text/plain" /\
    Headers_get (headers r) "Access-Control-Allow-Origin" = None.
Proof.
  intros Hmissing. unfold handleOptions.
  assert (bool_decide (Headers_get (req_headers request) "Origin" <> None) &&
          bool_decide (Headers_get (req_headers request) "Access-Control-Request-Method" <> None) &&
          bool_decide (Headers_get (req_headers request) "Access-Control-Request-Headers" <> None)
          = false) as ->.
  { destruct Hmissing as [-> | [-> | ->]];
      rewrite (bool_decide_eq_false_2 (None <> None)) by congruence;
      rewrite ?andb_false_r; reflexivity. }
  eexists. split; [reflexivity|]. repeat split.
Qed.

End OptionsFacts.

(** ** More on the boundary *)

Section BoundaryFacts.
Context {W : Type} {RT : Runtime W}.
Import Worker.

Lemma eqb_different (a b : string) : a <> b -> JsString.eqb a b = false.
Proof. unfold JsString.eqb. apply String.eqb_neq. Qed.

(** X13. [fetch] changes nothing else: the response it returns has the
    status and the body of the response the handler built, and every
    header other than the three CORS headers it sets is as the handler
    left it. *)
Theorem fetch_keeps_the_rest
    (request : Request) (env : Env W) (w w' : World W) (r : Response) :
  fetch request env w = (Ok r, w') ->
  exists parsed response,
    URL_parse (url request) = Some parsed /\
    dispatch request env (pathname parsed) w = (Ok response, w') /\
    status r = status response /\
    body r = body response /\
    forall name,
      JsString.lower name <> "access-control-allow-origin" ->
      JsString.lower name <> "access-control-allow-methods" ->
      JsString.lower name <> "access-control-allow-credentials" ->
      Headers_get (headers r) name = Headers_get (headers response) name.
Proof.
  intros (parsed & response & origin & Hurl & Hdispatch & _ & ->)%fetch_returned.
  exists parsed, response. split; [exact Hurl|]. split; [exact Hdispatch|].
  split; [reflexivity|]. split; [reflexivity|].
  intros name Ho Hm Hc. unfold Headers_get, stamp. simpl headers.
  now rewrite !lookup_insert_ne by congruence.
Qed.

(** X14. An OPTIONS request never reaches a collaborator, whatever its
    path: [fetch] leaves the world as it was, the call log included. *)
Theorem fetch_options_calls_nobody (request : Request) (env : Env W) (w : World W) :
  method request = "OPTIONS" ->
  snd (fetch request env w) = w.
Proof.
  intros Hmethod. unfold fetch.
  destruct (URL_parse (url request)) as [parsed|]; [|reflexivity].
  unfold dispatch. rewrite Hmethod. change (JsString.eqb "OPTIONS" "OPTIONS") with true.
  cbv iota. unfold bind, lift, ret.
  destruct (handleOptions request) as [response|e]; [|reflexivity].
  destruct (getValidatedOrigin request) as [origin|e]; [|reflexivity].
  unfold Headers_set.
  destruct (valid_header_value (or_default origin "*")); reflexivity.
Qed.

(** X15. Routing is by exact match of the path: a request that is not
    OPTIONS and whose path is none of the five routes is answered with
    404 and the text [Not Found], and no collaborator is called. *)
Theorem fetch_unmatched_path
    (request : Request) (env : Env W) (w : World W) (parsed : URL) (origin : option string) :
  URL_parse (url request) = Some parsed ->
  method request <> "OPTIONS" ->
  ~ In (pathname parsed) routes ->
  getValidatedOrigin request = Ok origin ->
  valid_header_value (or_default origin "*") = true ->
  exists r,
    fetch request env w = (Ok r, w) /\
    status r = 404%N /\
    body r = BodyText "Not Found".
Proof.
  intros Hurl Hmethod Hpath Horigin Hvalid.
  assert (dispatch request env (pathname parsed) w
          = (Ok (Response_of (BodyText "Not Found") 404 ∅), w)) as Hdispatch.
  { unfold dispatch. rewrite (eqb_different _ _ Hmethod).
    unfold routes in Hpath. simpl in Hpath.
    rewrite !eqb_different by (intros Heq; apply Hpath; rewrite Heq; tauto).
    reflexivity. }
  rewrite (fetch_returns request env w w parsed _ origin Hurl Hdispatch Horigin Hvalid).
  eexists. split; [reflexivity|]. split; reflexivity.
Qed.

End BoundaryFacts.

(** ** More on logout *)

Section LogoutTrace.
Context {W : Type} {RT : Runtime W}.
Import Worker.


End LogoutTrace.

(** ** More on login *)

Lemma member_ok (v : value) (k : string) (x : value) :
  member v k = Ok x -> x = field v k.
Proof.
  destruct v; simpl; try discriminate; try (now intros [= <-]).
  destruct (own_property k props); now intros [= <-].
Qed.

Lemma login_headers_built (o c : string) (h : Headers) :
  Headers_new [ ("Access-Control-Allow-Origin", o);
                ("Content-Type", "application/json");
                ("Set-Cookie", c) ] = Ok h ->
  h = <["set-cookie" := c]>
        (<["content-type" := "application/json"]>
          (<["access-control-allow-origin" := o]> ∅)).
Proof.
  destruct (valid_header_value o) eqn:Ho.
  - destruct (valid_header_value c) eqn:Hc.
    + rewrite (login_headers _ _ Ho Hc). now intros [= <-].
    + unfold Headers_new, Headers_fill, Headers_append, outcome_bind.
      lower_names. rewrite Ho, Hc. literal_values. cbv beta iota. fresh_names. discriminate.
  - unfold Headers_new, Headers_fill, Headers_append, outcome_bind.
    rewrite Ho. discriminate.
Qed.

Lemma refusal_has_no_cookie (msg : string) :
  login_answer (Response_of (Worker.json_error msg) 401 ∅).
Proof. left. split; reflexivity. Qed.

Section LoginShape.
Context {W : Type} {RT : Runtime W}.
Import Worker.

Ltac close_with news :=
  exists news; cbn [fst snd log host];
  split; [rewrite <- ?app_assoc; reflexivity |];
  split; [repeat constructor; try (eexists; reflexivity) | try exact I].

(** Every path through the [try] of [handleLogin]. *)
Lemma loginAttempt_shape (request : Request) (env : Env W) (u p : value) (w : World W) :
  exists news,
    log (snd (loginAttempt request env u p w)) = log w ++ news /\
    Forall login_event news /\
    match fst (loginAttempt request env u p w) with
    | Ok (Some r) => login_answer r
    | _ => True
    end.
Proof.
  unfold loginAttempt.
  destruct (truthy u && truthy p).
  2: { exists []. cbn. rewrite app_nil_r. repeat split. constructor. }
  unfold d1_all, service_fetch, bind, call, lift, ret.
  destruct (usersDB_all env loginQuery [u] (host w)) as [[found|e] s1].
  2: close_with [D1All loginQuery [u]].
  destruct (results found) as [|user others].
  1: close_with [D1All loginQuery [u]].
  destruct (member user "Password") as [stored|e].
  2: close_with [D1All loginQuery [u]].
  destruct (comparePassword p stored) as [[|]|e].
  3: close_with [D1All loginQuery [u]].
  2: { rewrite Response_new_plain. close_with [D1All loginQuery [u]].
       apply refusal_has_no_cookie. }
  cbn [negb].
  destruct (member user "Username") as [uname|e] eqn:Huname.
  2: close_with [D1All loginQuery [u]].
  destruct (member user "FirstName") as [first|e] eqn:Hfirst.
  2: close_with [D1All loginQuery [u]].
  destruct (member user "LastName") as [last|e] eqn:Hlast.
  2: close_with [D1All loginQuery [u]].
  apply member_ok in Huname, Hfirst, Hlast. subst uname first last.
  fold (creation_request user). cbn [host].
  destruct (sessionService_fetch env (creation_request user) s1) as [[sessionResponse|e] s2].
  2: close_with [D1All loginQuery [u]; ServiceFetch (creation_request user)].
  destruct (fr_text sessionResponse) as [sessionId|e].
  2: close_with [D1All loginQuery [u]; ServiceFetch (creation_request user)].
  destruct (getValidatedOrigin request) as [origin|e].
  2: close_with [D1All loginQuery [u]; ServiceFetch (creation_request user)].
  change ("cfw_session=" +:+ sessionId +:+
          "; Secure; Path=/; SameSite=None; Max-Age=" +:+ Number_toString 10 (60 * 30))
    with (session_cookie sessionId).
  destruct (Headers_new _) as [h|e] eqn:Hheaders.
  2: close_with [D1All loginQuery [u]; ServiceFetch (creation_request user)].
  apply login_headers_built in Hheaders. subst h.
  close_with [D1All loginQuery [u]; ServiceFetch (creation_request user)].
  right. split; [reflexivity|]. exists sessionId.
  unfold Response_of, Headers_get. cbn [headers]. lower_names.
  rewrite lookup_insert_ne by discriminate. rewrite lookup_insert_eq. cbv iota.
  apply lookup_insert_eq.
Qed.

End LoginShape.

Section LoginOutcomes.
Context {W : Type} {RT : Runtime W}.
Import Worker.

(** [handleLogin] after its [try]. *)
Lemma handleLogin_after_try (request : Request) (env : Env W) (w : World W) (v : value) :
  req_json request = Ok v ->
  nullish v = false ->
  handleLogin request env w =
    match loginAttempt request env (field v "username") (field v "password") w with
    | (Ok (Some r), w1) => (Ok r, w1)
    | (Ok None, w1) => (Ok (Response_of (json_error "Login failed") 401 ∅), w1)
    | (Throw e, w1) =>
        (Ok (Response_of (json_error "Login failed") 401 ∅),
         mkWorld (host w1) (log w1 ++ [ConsoleError e]))
    end.
Proof.
  intros Hjson Hv. unfold handleLogin. unfold bind at 1 2 3, lift at 1 2 3.
  rewrite Hjson, !(member_field _ _ Hv). unfold bind, try_catch.
  destruct (loginAttempt request env (field v "username") (field v "password") w)
    as [[[r|]|e] w1]; reflexivity.
Qed.

(** X17. Once the credentials have been read from the body,
    [handleLogin] always returns, and what it returns is either a 401
    without a [Set-Cookie] header or a 200 whose [Set-Cookie] is the
    session cookie: no cookie is ever set on a refusal. *)
Theorem handleLogin_answers (request : Request) (env : Env W) (w : World W) (v : value) :
  req_json request = Ok v ->
  nullish v = false ->
  exists r w', handleLogin request env w = (Ok r, w') /\ login_answer r.
Proof.
  intros Hjson Hv. rewrite (handleLogin_after_try _ _ _ _ Hjson Hv).
  destruct (loginAttempt_shape request env (field v "username") (field v "password") w)
    as (news & _ & _ & Hanswer).
  destruct (loginAttempt request env (field v "username") (field v "password") w)
    as [[[r|]|e] w1]; cbn [fst] in Hanswer; eexists _, _.
  - split; [reflexivity | exact Hanswer].
  - split; [reflexivity | apply refusal_has_no_cookie].
  - split; [reflexivity | apply refusal_has_no_cookie].
Qed.


(** X19. A wrong password for a user that exists is answered with 401
    and [{error: 'Invalid credentials'}], sets no cookie, and stops the
    run after the lookup: the session service is not called. *)
Theorem handleLogin_wrong_password
    (request : Request) (env : Env W) (w : World W) (v : value)
    (found : D1Result) (s1 : W) (user : value) (others : list value) :
  req_json request = Ok v ->
  truthy (field v "username") = true ->
  truthy (field v "password") = true ->
  usersDB_all env loginQuery [field v "username"] (host w) = (Ok found, s1) ->
  results found = user :: others ->
  comparePassword (field v "password") (field user "Password") = Ok false ->
  exists r,
    handleLogin request env w =
      (Ok r, mkWorld s1 (log w ++ [D1All loginQuery [field v "username"]])) /\
    status r = 401%N /\
    body r = json_error "Invalid credentials" /\
    Headers_get (headers r) "Set-Cookie" = None.
Proof.
  intros Hjson Husername Hpassword Hquery Hresults Hmatch.
  pose proof (truthy_field_not_nullish _ _ Husername) as Hbody.
  assert (nullish user = false) as Huser.
  { destruct (comparePassword_reads_string _ _ _ Hmatch) as [stored Hstored].
    exact (string_field_not_nullish _ _ _ Hstored). }
  rewrite (handleLogin_after_try _ _ _ _ Hjson Hbody).
  unfold loginAttempt. rewrite Husername, Hpassword.
  unfold d1_all, bind, call, lift, ret. cbn [andb]. rewrite Hquery. cbv beta iota.
  rewrite Hresults. cbv beta iota. rewrite (member_field _ _ Huser), Hmatch.
  eexists. split; [reflexivity|]. repeat split.
Qed.

(** X20. A username that the user store does not know is answered with
    401 and [{error: 'Login failed'}], without a cookie and without a
    call to the session service. *)
Theorem handleLogin_unknown_user
    (request : Request) (env : Env W) (w : World W) (v : value) (found : D1Result) (s1 : W) :
  req_json request = Ok v ->
  truthy (field v "username") = true ->
  truthy (field v "password") = true ->
  usersDB_all env loginQuery [field v "username"] (host w) = (Ok found, s1) ->
  results found = [] ->
  exists r,
    handleLogin request env w =
      (Ok r, mkWorld s1 (log w ++ [D1All loginQuery [field v "username"]])) /\
    status r = 401%N /\
    body r = json_error "Login failed" /\
    Headers_get (headers r) "Set-Cookie" = None.
Proof.
  intros Hjson Husername Hpassword Hquery Hresults.
  pose proof (truthy_field_not_nullish _ _ Husername) as Hbody.
  rewrite (handleLogin_after_try _ _ _ _ Hjson Hbody).
  unfold loginAttempt. rewrite Husername, Hpassword.
  unfold d1_all, bind, call, lift, ret. cbn [andb]. rewrite Hquery. cbv beta iota.
  rewrite Hresults.
  eexists. split; [reflexivity|]. repeat split.
Qed.

(** X21. Credentials with a missing or empty username or password are
    refused with 401 and [{error: 'Login failed'}] before any call: the
    user store is not queried. *)
Theorem handleLogin_missing_credentials
    (request : Request) (env : Env W) (w : World W) (v : value) :
  req_json request = Ok v ->
  nullish v = false ->
  truthy (field v "username") = false \/ truthy (field v "password") = false ->
  exists r,
    handleLogin request env w = (Ok r, w) /\
    status r = 401%N /\
    body r = json_error "Login failed" /\
    Headers_get (headers r) "Set-Cookie" = None.
Proof.
  intros Hjson Hbody Hmissing.
  rewrite (handleLogin_after_try _ _ _ _ Hjson Hbody).
  unfold loginAttempt.
  assert (truthy (field v "username") && truthy (field v "password") = false) as ->
    by (destruct Hmissing as [-> | ->]; [reflexivity | apply andb_false_r]).
  eexists. split; [reflexivity|]. repeat split.
Qed.

End LoginOutcomes.

(** ** More on registration *)

Section RegisterOutcomes.
Context {W : Type} {RT : Runtime W}.
Import Worker.

(** X22. Registration and login agree. When the existence query finds no
    match, the password is a string and the insert goes through,
    [handleRegister] answers 201 with
    [{message: 'User registered successfully'}] after exactly three calls:
    the existence query, the draw of the salt, and the insert. What it
    stores in the Password column is the hash of the password, which
    [comparePassword] accepts for that password. *)
Theorem handleRegister_registers
    (request : Request) (env : Env W) (w w2 : World W) (v : value) (pw hashed : string)
    (found : D1Result) (s1 s3 : W) :
  req_json request = Ok v ->
  truthy (field v "username") = true ->
  field v "password" = VString pw ->
  pw <> EmptyString ->
  usersDB_all env checkUserQuery [field v "username"] (host w) = (Ok found, s1) ->
  success found && (0 <? length (results found))%nat = false ->
  hashPassword (VString pw)
    (mkWorld s1 (log w ++ [D1All checkUserQuery [field v "username"]])) = (Ok hashed, w2) ->
  usersDB_run env insertUserQuery
    [field v "username"; VString hashed; field v "firstName"; field v "lastName"] (host w2)
    = (Ok tt, s3) ->
  exists r,
    handleRegister request env w =
      (Ok r, mkWorld s3 (log w ++ register_calls (field v "username") (VString hashed)
                                    (field v "firstName") (field v "lastName"))) /\
    status r = 201%N /\
    body r = json_message "User registered successfully" /\
    comparePassword (VString pw) (VString hashed) = Ok true.
Proof.
  intros Hjson Husername Hpw Hne Hquery Hnone Hhash Hinsert.
  pose proof (truthy_field_not_nullish _ _ Husername) as Hbody.
  assert (truthy (field v "password") = true) as Hpassword
    by (rewrite Hpw; destruct pw; [congruence | reflexivity]).
  rewrite (handleRegister_validated request env w v Hjson Hbody Husername Hpassword).
  unfold try_catch. unfold bind at 1. unfold d1_all at 1, call at 1.
  rewrite Hquery, Hnone. unfold bind at 1. rewrite Hpw, Hhash.
  unfold bind, d1_run, call, lift. rewrite Hinsert.
  assert (log w2 = (log w ++ [D1All checkUserQuery [field v "username"]]) ++ [RandomValues 16]
          /\ comparePassword (VString pw) (VString hashed) = Ok true) as [Hlog Hcompare].
  { revert Hhash. unfold hashPassword, bind, call, lift, ret. cbn [host log].
    destruct (crypto_getRandomValues 16 s1) as [random s2]. cbn [string_plus].
    intros [= <- <-]. split; [reflexivity|].
    unfold comparePassword. cbn [split_stored outcome_bind].
    rewrite split_stored_hash. cbn [nth nth_error string_plus outcome_bind].
    now rewrite eqb_same. }
  eexists. split.
  { rewrite Response_new_plain, Hlog. unfold register_calls.
    rewrite <- !app_assoc. reflexivity. }
  split; [reflexivity | split; [reflexivity | exact Hcompare]].
Qed.

(** X23. Every run of [handleRegister] returns a response, with status
    201, 400, 409 or 500. Its calls are a beginning of: existence query,
    draw of the salt, insert; so the session service is never called and
    an insert is never issued before the existence query has answered in
    the same run. Status 201 is given only after all three. *)
Theorem handleRegister_runs (request : Request) (env : Env W) (w : World W) :
  exists r w' news,
    handleRegister request env w = (Ok r, w') /\
    log w' = log w ++ news /\
    In (status r) [201; 400; 409; 500]%N /\
    (exists username hashed firstName lastName rest,
       register_calls username hashed firstName lastName = news ++ rest /\
       (status r = 201%N -> rest = [])).
Proof.
  assert (forall r : Response, In (status r) [201; 400; 409; 500]%N ->
            status r <> 201%N ->
            exists username hashed firstName lastName rest,
              register_calls username hashed firstName lastName = [] ++ rest /\
              (status r = 201%N -> rest = [])) as Hnothing.
  { intros r _ Hr. eexists VUndefined, VUndefined, VUndefined, VUndefined, _.
    split; [reflexivity | contradiction]. }
  destruct (req_json request) as [v|e] eqn:Hjson.
  2: { rewrite (handleRegister_unparsed _ _ _ _ Hjson). eexists _, _, [].
       split; [reflexivity|]. rewrite app_nil_r. split; [reflexivity|].
       split; [cbn; tauto | apply Hnothing; [cbn; tauto | discriminate]]. }
  destruct (nullish v) eqn:Hbody.
  { rewrite (handleRegister_nullish_body _ _ _ _ Hjson Hbody). eexists _, _, [].
    split; [reflexivity|]. rewrite app_nil_r. split; [reflexivity|].
    split; [cbn; tauto | apply Hnothing; [cbn; tauto | discriminate]]. }
  destruct (truthy (field v "username") && truthy (field v "password")) eqn:Hvalid.
  2: { apply andb_false_iff in Hvalid.
       rewrite (handleRegister_stops_at_validation _ _ _ _ Hjson Hbody Hvalid). eexists _, _, [].
       split; [reflexivity|]. rewrite app_nil_r. split; [reflexivity|].
       split; [cbn; tauto | apply Hnothing; [cbn; tauto | discriminate]]. }
  apply andb_true_iff in Hvalid as [Husername Hpassword].
  rewrite (handleRegister_validated request env w v Hjson Hbody Husername Hpassword).
  unfold hashPassword, d1_all, d1_run, try_catch, bind, call, lift, ret.
  destruct (usersDB_all env checkUserQuery [field v "username"] (host w)) as [[found|e] s1].
  2: { eexists _, _, [_]. split; [reflexivity|]. cbn [log]. split; [reflexivity|].
       split; [cbn; tauto|]. eexists _, VUndefined, VUndefined, VUndefined, _.
       split; [reflexivity | discriminate]. }
  destruct (success found && (0 <? length (results found))%nat).
  { eexists _, _, [_]. split; [reflexivity|]. cbn [log]. split; [reflexivity|].
    split; [cbn; tauto|]. eexists _, VUndefined, VUndefined, VUndefined, _.
    split; [reflexivity | discriminate]. }
  cbn [host].
  destruct (crypto_getRandomValues 16 s1) as [random s2].
  destruct (string_plus (Uint8Array_join random) (field v "password")) as [text|e].
  2: { eexists _, _, [_; _]. split; [reflexivity|]. cbn [log].
       split; [now rewrite <- app_assoc|].
       split; [cbn; tauto|]. eexists _, VUndefined, VUndefined, VUndefined, _.
       split; [reflexivity | discriminate]. }
  cbn [host].
  match goal with |- context [usersDB_run env ?q ?args s2] =>
    destruct (usersDB_run env q args s2) as [[[]|e] s3] end.
  - eexists _, _, [_; _; _]. split; [reflexivity|]. cbn [log].
    split; [now rewrite <- !app_assoc|].
    split; [cbn; tauto|]. eexists _, _, _, _, []. split; [reflexivity | reflexivity].
  - eexists _, _, [_; _; _]. split; [reflexivity|]. cbn [log].
    split; [now rewrite <- !app_assoc|].
    split; [cbn; tauto|]. eexists _, _, _, _, []. split; [reflexivity | reflexivity].
Qed.

End RegisterOutcomes.

(** ** More on origins *)

Section OriginSoundness.
Context {W : Type} {RT : Runtime W}.
Import Worker.

(** X24. An origin that [getValidatedOrigin] returns is the Origin header
    of the request, unchanged, and it parses as a URL whose protocol is
    [http:] or [https:]. *)
Theorem getValidatedOrigin_accepts_http_only (request : Request) (o : string) :
  getValidatedOrigin request = Ok (Some o) ->
  Headers_get (req_headers request) "Origin" = Some o /\
  exists u, URL_parse o = Some u /\ (protocol u = "http:" \/ protocol u = "https:").
Proof.
  unfold getValidatedOrigin.
  destruct (Headers_get (req_headers request) "Origin") as [origin|]; [|discriminate].
  destruct (URL_parse origin) as [u|] eqn:Hu; [|discriminate].
  destruct (JsString.eqb (protocol u) "http:") eqn:Hhttp.
  - intros [= <-]. split; [reflexivity|]. exists u. split; [exact Hu|].
    left. now apply eqb_true.
  - destruct (JsString.eqb (protocol u) "https:") eqn:Hhttps; intros [= <-].
    split; [reflexivity|]. exists u. split; [exact Hu|]. right. now apply eqb_true.
Qed.

End OriginSoundness.

(** ** The further properties on concrete requests *)

Section MoreRuns.
Import Worker Sample.

Lemma hashPassword_stored_format_run :
  exists salt hexDigest,
    fst (hashPassword (VString "p") empty_world) = Ok (salt +:+ ":" +:+ hexDigest) /\
    all_chars is_decimal_digit salt = true /\
    (16 <= String.length salt <= 48)%nat /\
    hexDigest = hex_of_bytes (subtle_digest (TextEncoder_encode (salt +:+ "p"))) /\
    all_chars is_hex_digit hexDigest = true /\
    String.length hexDigest
      = (2 * length (subtle_digest (TextEncoder_encode (salt +:+ "p"))))%nat.
Proof.
  apply (hashPassword_stored_format "p" empty_world
           (fst (random_bytes 16 (host empty_world))) (host empty_world));
    reflexivity.
Defined.

Lemma comparePassword_accepts_iff_same_digest_run :
  exists salt,
    salt = Uint8Array_join (fst (crypto_getRandomValues 16 (host empty_world))) /\
    (exists accepted, comparePassword (VString "q") (VString stored_hash) = Ok accepted) /\
    (comparePassword (VString "q") (VString stored_hash) = Ok true <->
     subtle_digest (TextEncoder_encode (salt +:+ "q"))
     = subtle_digest (TextEncoder_encode (salt +:+ "p"))).
Proof.
  apply (comparePassword_accepts_iff_same_digest "p" "q" empty_world
           (mkWorld (host empty_world) [RandomValues 16]) stored_hash).
  vm_compute. reflexivity.
Defined.

Lemma comparePassword_rejects_hash_without_colon_run :
  comparePassword (VString "p") (VString "plaintext") = Ok false.
Proof.
  apply (comparePassword_rejects_hash_without_colon "p" "plaintext"). reflexivity.
Defined.

Lemma sessionIdOfCookie_id_is_clean_run :
  sessionIdOfCookie (Some "theme=dark; cfw_session=ab=cd; lang=en") = Some "ab" /\
  JsString.contains "=" "ab" = false /\ JsString.contains ";" "ab" = false.
Proof.
  split; [reflexivity|].
  apply (sessionIdOfCookie_id_is_clean (Some "theme=dark; cfw_session=ab=cd; lang=en") "ab").
  reflexivity.
Defined.

Lemma sessionIdOfCookie_among_cookies_run :
  sessionIdOfCookie (Some "theme=dark; cfw_session=s0 ; lang=en") = Some "s0".
Proof.
  apply (sessionIdOfCookie_among_cookies ["theme=dark"] [" lang=en"] " cfw_session=s0 " "s0").
  - repeat constructor.
  - repeat constructor.
  - reflexivity.
  - reflexivity.
Defined.

Lemma handleLoadUser_without_session_run :
  exists r,
    handleLoadUser anonymous_request env registered = (Ok r, registered) /\
    status r = 401%N /\
    body r = json_error "User not logged in".
Proof.
  apply (handleLoadUser_without_session anonymous_request env registered). reflexivity.
Defined.


Lemma handleLoadUser_propagates_run :
  fst (handleLoadUser load_user_request env_down registered)
    = Throw (HostError "session service unreachable").
Proof.
  apply (handleLoadUser_propagates load_user_request env_down registered "s0").
  - reflexivity.
  - left. eexists. reflexivity.
Defined.

Lemma handleForgotPassword_is_a_stub_run :
  exists r,
    handleForgotPassword forgot_request env registered = (Ok r, registered) /\
    status r = 200%N /\
    body r = json_message "Password reset initiated".
Proof.
  apply (handleForgotPassword_is_a_stub forgot_request env registered (VObject []));
    reflexivity.
Defined.

Lemma handleOptions_preflight_run :
  exists r,
    handleOptions preflight_request = Ok r /\
    status r = 200%N /\
    body r = BodyNull /\
    Headers_get (headers r) "Access-Control-Allow-Origin" = Some "https://app.example" /\
    Headers_get (headers r) "Access-Control-Allow-Methods" = Some "GET,HEAD,POST,OPTIONS" /\
    Headers_get (headers r) "Access-Control-Max-Age" = Some "86400" /\
    Headers_get (headers r) "Access-Control-Allow-Credentials" = Some "true" /\
    Headers_get (headers r) "Access-Control-Allow-Headers" = Some "content-type" /\
    Headers_get (headers r) "Content-Type" = Some "text/plain" /\
    Headers_get (headers r) "X-Content-Type-Options" = Some "nosniff".
Proof.
  apply (handleOptions_preflight preflight_request "https://app.example" "POST" "content-type"
           (Some "https://app.example")); reflexivity.
Defined.

Lemma handleOptions_plain_run :
  getValidatedOrigin options_request = Throw TypeError /\
  exists r,
    handleOptions options_request = Ok r /\
    status r = 200%N /\
    body r = BodyNull /\
    Headers_get (headers r) "Allow" = Some "GET, HEAD, POST, OPTIONS" /\
    Headers_get (headers r) "Content-Type" = Some "text/plain" /\
    Headers_get (headers r) "Access-Control-Allow-Origin" = None.
Proof.
  split; [reflexivity|].
  apply (handleOptions_plain options_request). right. left. reflexivity.
Defined.

Lemma fetch_keeps_the_rest_run :
  exists parsed response,
    URL_parse (url unmatched_request) = Some parsed /\
    dispatch unmatched_request env (pathname parsed) empty_world = (Ok response, empty_world) /\
    status unmatched_response = status response /\
    body unmatched_response = body response /\
    forall name,
      JsString.lower name <> "access-control-allow-origin" ->
      JsString.lower name <> "access-control-allow-methods" ->
      JsString.lower name <> "access-control-allow-credentials" ->
      Headers_get (headers unmatched_response) name = Headers_get (headers response) name.
Proof.
  apply (fetch_keeps_the_rest unmatched_request env empty_world empty_world unmatched_response).
  vm_compute. reflexivity.
Defined.

Lemma fetch_options_calls_nobody_run :
  snd (fetch preflight_request env registered) = registered.
Proof.
  apply (fetch_options_calls_nobody preflight_request env registered). reflexivity.
Defined.

Lemma fetch_unmatched_path_run :
  exists r,
    fetch unmatched_request env registered = (Ok r, registered) /\
    status r = 404%N /\
    body r = BodyText "Not Found".
Proof.
  apply (fetch_unmatched_path unmatched_request env registered
           (mkURL "https:" "/nowhere") (Some "https://app.example")).
  - reflexivity.
  - discriminate.
  - unfold routes. simpl. intros [H | [H | [H | [H | [H | []]]]]]; discriminate.
  - reflexivity.
  - reflexivity.
Defined.

Lemma handleLogin_answers_run :
  exists r w', handleLogin login_request env registered = (Ok r, w') /\ login_answer r.
Proof.
  apply (handleLogin_answers login_request env registered
           (VObject [("username", VString "a"); ("password", VString "p")])); reflexivity.
Defined.

Lemma handleLogin_wrong_password_run :
  exists r,
    handleLogin login_wrong_password env registered =
      (Ok r, mkWorld (host registered) (log registered ++ [D1All loginQuery [VString "a"]])) /\
    status r = 401%N /\
    body r = json_error "Invalid credentials" /\
    Headers_get (headers r) "Set-Cookie" = None.
Proof.
  apply (handleLogin_wrong_password login_wrong_password env registered
           (VObject [("username", VString "a"); ("password", VString "q")])
           (mkD1Result true [stored_row]) (host registered) stored_row []); reflexivity.
Defined.

Lemma handleLogin_unknown_user_run :
  exists r,
    handleLogin login_unknown_user env registered =
      (Ok r, mkWorld (host registered) (log registered ++ [D1All loginQuery [VString "b"]])) /\
    status r = 401%N /\
    body r = json_error "Login failed" /\
    Headers_get (headers r) "Set-Cookie" = None.
Proof.
  apply (handleLogin_unknown_user login_unknown_user env registered
           (VObject [("username", VString "b"); ("password", VString "p")])
           (mkD1Result true []) (host registered)); reflexivity.
Defined.

Lemma handleLogin_missing_credentials_run :
  exists r,
    handleLogin login_without_password env registered = (Ok r, registered) /\
    status r = 401%N /\
    body r = json_error "Login failed" /\
    Headers_get (headers r) "Set-Cookie" = None.
Proof.
  apply (handleLogin_missing_credentials login_without_password env registered
           (VObject [("username", VString "a")])).
  - reflexivity.
  - reflexivity.
  - right. reflexivity.
Defined.

Lemma handleRegister_registers_run :
  exists r,
    handleRegister register_request env empty_world =
      (Ok r, mkWorld (host registered)
               (log empty_world ++ register_calls (VString "a") (VString stored_hash)
                                     (VString "A") VUndefined)) /\
    status r = 201%N /\
    body r = json_message "User registered successfully" /\
    comparePassword (VString "p") (VString stored_hash) = Ok true.
Proof.
  apply (handleRegister_registers register_request env empty_world
           (mkWorld (host empty_world) [D1All checkUserQuery [VString "a"]; RandomValues 16])
           (VObject [ ("username", VString "a"); ("password", VString "p");
                      ("firstName", VString "A") ])
           "p" stored_hash (mkD1Result true []) (host empty_world) (host registered)).
  - reflexivity.
  - reflexivity.
  - reflexivity.
  - discriminate.
  - reflexivity.
  - reflexivity.
  - vm_compute. reflexivity.
  - reflexivity.
Defined.

Lemma getValidatedOrigin_accepts_http_only_run :
  Headers_get (req_headers login_request) "Origin" = Some "https://app.example" /\
  exists u, URL_parse "https://app.example" = Some u /\
            (protocol u = "http:" \/ protocol u = "https:").
Proof.
  apply (getValidatedOrigin_accepts_http_only login_request "https://app.example").
  reflexivity.
Defined.

End MoreRuns.
